(** * Movie review sentiment analyser: shallow embedding of [movie_analyzer_.py]

    The script tokenises a review with a pretrained tokenizer, runs a frozen
    BERT encoder followed by a GRU head, trains the head for a few epochs,
    keeps the checkpoint with the best validation loss and finally classifies
    single sentences.

    Library objects (the tokenizer, the tensor kernels of the encoder and of
    the head, the loss, the optimizer's update rule) are interfaces here: the
    script only calls them.  Everything the script itself writes (slicing,
    special tokens, mode flags, gradient flags, loops, accumulators, the
    checkpoint test) is embedded as functions over an explicit state.
    Floating point numbers are idealised as real numbers. *)

From Stdlib Require Import String Ascii DecimalString.
From Stdlib Require Import List Sorted ZArith Lia Bool.
From Stdlib Require Import Reals Lra.
Import ListNotations.

Local Open Scope Z_scope.

(** ** Python helpers *)

(** [len(l)] *)
Definition len {A : Type} (l : list A) : Z := Z.of_nat (length l).

(** [l[:k]], with Python's reading of a negative bound. *)
Definition py_slice_to {A : Type} (l : list A) (k : Z) : list A :=
  if k <? 0
  then firstn (length l - Z.to_nat (- k)) l
  else firstn (Z.to_nat k) l.

(** ** The tokenizer (lines 38-83) *)

(** What the script uses of [BertTokenizer]: [tokenize], the vocabulary lookup
    behind [convert_tokens_to_ids], and the four special tokens. *)
Class Tokenizer : Type := {
  token : Type;
  tokenize : string -> list token;
  convert_token_to_id : token -> Z;
  cls_token : token;
  sep_token : token;
  pad_token : token;
  unk_token : token
}.

Section Tokenization.
Context {tk : Tokenizer}.

(** [tokenizer.convert_tokens_to_ids] on a list of tokens. *)
Definition convert_tokens_to_ids (tokens : list token) : list Z :=
  map convert_token_to_id tokens.

Definition init_token_idx : Z := convert_token_to_id cls_token.
Definition eos_token_idx : Z := convert_token_to_id sep_token.
Definition pad_token_idx : Z := convert_token_to_id pad_token.
Definition unk_token_idx : Z := convert_token_to_id unk_token.

(** [tokenizer.max_model_input_sizes['google-bert/bert-base-uncased']]:
    "for this model, it is 512 tokens" (line 81). *)
Definition max_input_length : Z := 512.

(** Lines 87-90. *)
Definition tokenize_and_cut (sentence : string) : list token :=
  let tokens := tokenize sentence in
  let tokens := py_slice_to tokens (max_input_length - 2) in
  tokens.

(** Lines 423-425 of [predict_sentiment]: the id sequence handed to the
    model. *)
Definition predict_tokens (sentence : string) : list token :=
  let tokens := tokenize sentence in
  py_slice_to tokens (max_input_length - 2).

Definition predict_indexed (sentence : string) : list Z :=
  [init_token_idx] ++ convert_tokens_to_ids (predict_tokens sentence)
                   ++ [eos_token_idx].

End Tokenization.

(** ** Exceptions and the state monad of the script *)

Inductive Exception : Type :=
| ZeroDivisionError
| RuntimeError.

Inductive Result (A : Type) : Type :=
| Ok (a : A)
| Raise (e : Exception).
Arguments Ok {A} a.
Arguments Raise {A} e.

(** ** Numeric kernels of the libraries

    The arithmetic inside the encoder, the GRU, the linear layer, dropout,
    automatic differentiation and Adam is library code; the script fixes only
    how they are wired.  Each kernel works on one row of a batch, so the
    batch dimension is the list the kernels are mapped over. *)
Class Torch : Type := {
  tensor : Type;
  embedding : Type;
  hidden : Type;
  opt_state : Type;
  (** [self.bert(text)[0]] for one row: parameter values, training flag,
      generator state, token ids. *)
  bert_forward : list (string * tensor) -> bool -> nat -> list Z -> embedding;
  (** second result of [self.rnn(embedded)], read through its first index. *)
  gru_forward : list (string * tensor) -> bool -> nat -> embedding -> Z -> hidden;
  (** [torch.cat((a, b), dim = 1)] on one row *)
  cat : hidden -> hidden -> hidden;
  (** the random mask of [nn.Dropout] in training mode *)
  dropout_mask : nat -> hidden -> hidden;
  (** [self.out(hidden)] with output dimension 1, squeezed *)
  linear_forward : list (string * tensor) -> hidden -> R;
  (** gradient of a loss with respect to the named parameter *)
  autograd : (list R -> list R -> R) -> list (string * tensor) -> bool -> nat ->
             list (list Z) -> list R -> string -> tensor;
  tensor_add : tensor -> tensor -> tensor;
  (** Adam's update of one parameter: state, name, value, gradient *)
  adam_update : opt_state -> string -> tensor -> tensor -> tensor * opt_state
}.

Section Model.
Context {tk : Tokenizer} {th : Torch}.

(** *** Parameters and modules *)

Record Param : Type := mkParam {
  data : tensor;
  requires_grad : bool;
  grad : option tensor
}.

Definition set_requires_grad (b : bool) (p : Param) : Param :=
  {| data := data p; requires_grad := b; grad := grad p |}.

Definition set_grad (g : option tensor) (p : Param) : Param :=
  {| data := data p; requires_grad := requires_grad p; grad := g |}.

Definition set_data (d : tensor) (p : Param) : Param :=
  {| data := d; requires_grad := requires_grad p; grad := grad p |}.

(** [BERTGRUSentiment]: the three sub-modules that own parameters (lines
    153-166; [nn.Dropout] owns none), the GRU's direction flag and the
    module's training flag. *)
Record BERTGRUSentiment : Type := mkModel {
  bert : list (string * Param);
  rnn : list (string * Param);
  out : list (string * Param);
  bidirectional : bool;
  training : bool
}.

Definition qualify (owner : string) (name : string) : string :=
  (owner ++ "." ++ name)%string.

Definition qualified (owner : string) (ps : list (string * Param))
  : list (string * Param) :=
  map (fun np => (qualify owner (fst np), snd np)) ps.

(** [model.named_parameters()] *)
Definition named_parameters (m : BERTGRUSentiment) : list (string * Param) :=
  qualified "bert" (bert m) ++ qualified "rnn" (rnn m) ++ qualified "out" (out m).

(** [model.parameters()] *)
Definition parameters (m : BERTGRUSentiment) : list Param :=
  map snd (named_parameters m).

(** [model.state_dict()] *)
Definition state_dict (m : BERTGRUSentiment) : list (string * tensor) :=
  map (fun np => (fst np, data (snd np))) (named_parameters m).

Definition values (ps : list (string * Param)) : list (string * tensor) :=
  map (fun np => (fst np, data (snd np))) ps.

(** A freshly created parameter: tracked, without gradient. *)
Definition fresh (w : string * tensor) : string * Param :=
  (fst w, mkParam (snd w) true None).

(** [BertModel.from_pretrained('bert-base-uncased')] (line 142) *)
Definition from_pretrained (weights : list (string * tensor))
  : list (string * Param) :=
  map fresh weights.

Definition decimal (n : nat) : string :=
  NilEmpty.string_of_uint (Nat.to_uint n).

(** Parameter names of [nn.GRU] with [n_layers] layers. *)
Definition gru_parameter_names (n_layers : nat) (bidir : bool) : list string :=
  flat_map
    (fun layer =>
       flat_map
         (fun suffix =>
            map (fun kind => (kind ++ "_l" ++ decimal layer ++ suffix)%string)
                ["weight_ih"; "weight_hh"; "bias_ih"; "bias_hh"]%string)
         (if bidir then [EmptyString; "_reverse"%string] else [EmptyString]))
    (seq 0 n_layers).

(** The constructor (lines 149-166); [init] gives the initial value of each
    new head parameter. *)
Definition new_model (bert_module : list (string * Param))
           (n_layers : nat) (bidir : bool) (init : string -> tensor)
  : BERTGRUSentiment :=
  {| bert := bert_module;
     rnn := map (fun n => fresh (n, init (qualify "rnn" n)))
                (gru_parameter_names n_layers bidir);
     out := map (fun n => fresh (n, init (qualify "out" n)))
                ["weight"; "bias"]%string;
     bidirectional := bidir;
     training := true |}.

Definition N_LAYERS : nat := 2.
Definition BIDIRECTIONAL : bool := true.

(** Lines 212-217. *)
Definition construct (weights : list (string * tensor)) (init : string -> tensor)
  : BERTGRUSentiment :=
  new_model (from_pretrained weights) N_LAYERS BIDIRECTIONAL init.

(** Assignment through the references that [named_parameters] yields. *)
Definition update_named (f : string -> Param -> Param) (m : BERTGRUSentiment)
  : BERTGRUSentiment :=
  let upd owner := map (fun np => (fst np, f (qualify owner (fst np)) (snd np))) in
  {| bert := upd "bert"%string (bert m);
     rnn := upd "rnn"%string (rnn m);
     out := upd "out"%string (out m);
     bidirectional := bidirectional m;
     training := training m |}.

(** Lines 234-236. *)
Definition freeze_by_name (m : BERTGRUSentiment) : BERTGRUSentiment :=
  update_named
    (fun name param =>
       if prefix "bert" name then set_requires_grad false param else param)
    m.

(** Lines 239-240. *)
Definition freeze_bert (m : BERTGRUSentiment) : BERTGRUSentiment :=
  {| bert := map (fun np => (fst np, set_requires_grad false (snd np))) (bert m);
     rnn := rnn m;
     out := out m;
     bidirectional := bidirectional m;
     training := training m |}.

(** Lines 212-240: construction followed by both freezing loops. *)
Definition prepare (weights : list (string * tensor)) (init : string -> tensor)
  : BERTGRUSentiment :=
  freeze_bert (freeze_by_name (construct weights init)).

End Model.

(** ** Scalar functions on logits *)

Local Open Scope R_scope.

(** [torch.sigmoid] *)
Definition sigmoid (x : R) : R := 1 / (1 + exp (- x)).

(** [torch.round]: to the nearest integer, a tie going to the even one. *)
Definition torch_round (x : R) : R :=
  let n := Int_part x in
  let d := x - IZR n in
  if Rlt_dec d (1 / 2) then IZR n
  else if Rlt_dec (1 / 2) d then IZR (n + 1)
  else if Z.even n then IZR n else IZR (n + 1).

Fixpoint sum (xs : list R) : R :=
  match xs with
  | [] => 0
  | x :: xs' => x + sum xs'
  end.

(** [t.mean()] of a one-dimensional tensor *)
Definition mean (xs : list R) : R := sum xs / INR (length xs).

(** [.float()] of a boolean tensor *)
Definition to_float (b : bool) : R := if b then 1 else 0.

Definition Req_bool (x y : R) : bool := if Req_dec_T x y then true else false.

(** [a == b] on one-dimensional tensors, with broadcasting of a length-one
    operand; other length mismatches are refused by the library. *)
Definition tensor_eq (a b : list R) : Result (list bool) :=
  if Nat.eqb (length a) (length b)
  then Ok (map (fun xy => Req_bool (fst xy) (snd xy)) (combine a b))
  else match a, b with
       | _, [y] => Ok (map (fun x => Req_bool x y) a)
       | [x], _ => Ok (map (fun y => Req_bool x y) b)
       | _, _ => Raise RuntimeError
       end.

(** Lines 278-293. *)
Definition binary_accuracy (preds y : list R) : Result R :=
  let rounded_preds := map torch_round (map sigmoid preds) in
  match tensor_eq rounded_preds y with
  | Ok eq => let correct := map to_float eq in
             let acc := mean correct in
             Ok acc
  | Raise e => Raise e
  end.

(** [a / n] for a number [a] and an integer [n]. *)
Definition py_div (a : R) (n : Z) : Result R :=
  if Z.eqb n 0 then Raise ZeroDivisionError else Ok (a / IZR n).

(** [float('inf')] or a finite number *)
Inductive pyfloat : Type :=
| Inf
| Finite (r : R).

(** [v < b] for a finite [v] *)
Definition lt_float (v : R) (b : pyfloat) : bool :=
  match b with
  | Inf => true
  | Finite r => if Rlt_dec v r then true else false
  end.

Local Close Scope R_scope.

(** ** The interpreter state and its monad *)

Section Script.
Context {tk : Tokenizer} {th : Torch}.

(** What the functions of the script read and write: the model object, the
    autograd switch ([torch.is_grad_enabled()]), the state Adam keeps
    between steps, and the random generator seeded on line 26. *)
Record World : Type := mkWorld {
  model : BERTGRUSentiment;
  grad_enabled : bool;
  optimizer : opt_state;
  generator : nat
}.

Definition with_model (m : BERTGRUSentiment) (w : World) : World :=
  {| model := m; grad_enabled := grad_enabled w;
     optimizer := optimizer w; generator := generator w |}.

Definition with_grad_enabled (b : bool) (w : World) : World :=
  {| model := model w; grad_enabled := b;
     optimizer := optimizer w; generator := generator w |}.

Definition with_optimizer (o : opt_state) (w : World) : World :=
  {| model := model w; grad_enabled := grad_enabled w;
     optimizer := o; generator := generator w |}.

Definition with_generator (g : nat) (w : World) : World :=
  {| model := model w; grad_enabled := grad_enabled w;
     optimizer := optimizer w; generator := g |}.

(** A computation returns or raises, and leaves a state either way. *)
Definition M (A : Type) : Type := World -> Result A * World.

Definition ret {A : Type} (a : A) : M A := fun w => (Ok a, w).

Definition raise {A : Type} (e : Exception) : M A := fun w => (Raise e, w).

Definition bind {A B : Type} (c : M A) (k : A -> M B) : M B :=
  fun w =>
    match c w with
    | (Ok a, w') => k a w'
    | (Raise e, w') => (Raise e, w')
    end.

Definition get : M World := fun w => (Ok w, w).

Definition modify (f : World -> World) : M unit := fun w => (Ok tt, f w).

Definition lift {A : Type} (r : Result A) : M A := fun w => (r, w).

Notation "x <- c ;; k" := (bind c (fun x => k))
  (at level 61, c at next level, right associativity).
Notation "c ;; k" := (bind c (fun _ => k))
  (at level 61, right associativity).

(** [for x in xs: acc = body(acc, x)] *)
Fixpoint for_each {A B : Type} (xs : list A) (acc : B) (body : B -> A -> M B)
  : M B :=
  match xs with
  | [] => ret acc
  | x :: xs' => acc' <- body acc x ;; for_each xs' acc' body
  end.

(** [with torch.no_grad(): c]; the previous mode comes back on exit, normal
    or not. *)
Definition with_no_grad {A : Type} (c : M A) : M A :=
  fun w =>
    let prev := grad_enabled w in
    let (r, w') := c (with_grad_enabled false w) in
    (r, with_grad_enabled prev w').

(** [model.train()] and [model.eval()] *)
Definition set_training (b : bool) (m : BERTGRUSentiment) : BERTGRUSentiment :=
  {| bert := bert m; rnn := rnn m; out := out m;
     bidirectional := bidirectional m; training := b |}.

Definition model_train : M unit :=
  modify (fun w => with_model (set_training true (model w)) w).

Definition model_eval : M unit :=
  modify (fun w => with_model (set_training false (model w)) w).

(** A stochastic layer reads the generator and, in training mode, moves it. *)
Definition draw : M nat :=
  fun w =>
    (Ok (generator w),
     if training (model w) then with_generator (S (generator w)) w else w).

(** *** Tensors with autograd history *)

(** A computed tensor and the parameters its history leads back to; it
    requires gradient exactly when there is one. *)
Record Tracked (A : Type) : Type := mkTracked {
  value : A;
  leaves : list string
}.
Arguments value {A} t.
Arguments leaves {A} t.
Arguments mkTracked {A} value leaves.

Definition tracks_grad {A : Type} (t : Tracked A) : bool :=
  match leaves t with [] => false | _ => true end.

(** Names of the parameters of a sub-module that autograd tracks. *)
Definition tracked_names (owner : string) (ps : list (string * Param)) : list string :=
  map fst (filter (fun np => requires_grad (snd np)) (qualified owner ps)).

(** History of the result of an operation with parameters [ps] (owned by
    [owner]) on inputs with history [inputs]: empty while autograd is off. *)
Definition history (owner : string) (ps : list (string * Param))
           (inputs : list string) : M (list string) :=
  w <- get ;;
  ret (if grad_enabled w then tracked_names owner ps ++ inputs else []).

(** [f(t)] for a parameter-free, row-wise [f] *)
Definition pointwise {A B : Type} (f : A -> B) (t : Tracked (list A))
  : M (Tracked (list B)) :=
  h <- history EmptyString [] (leaves t) ;;
  ret (mkTracked (map f (value t)) h).

(** *** The forward pass (lines 168-192) *)

Definition call_bert (text : list (list Z)) : M (Tracked (list embedding)) :=
  w <- get ;;
  seed <- draw ;;
  h <- history "bert" (bert (model w)) [] ;;
  ret (mkTracked
         (map (bert_forward (values (bert (model w))) (training (model w)) seed) text)
         h).

Definition call_rnn (embedded : Tracked (list embedding))
  : M (Tracked (list (Z -> hidden))) :=
  w <- get ;;
  seed <- draw ;;
  h <- history "rnn" (rnn (model w)) (leaves embedded) ;;
  ret (mkTracked
         (map (gru_forward (values (rnn (model w))) (training (model w)) seed)
              (value embedded))
         h).

Definition call_dropout (x : Tracked (list hidden)) : M (Tracked (list hidden)) :=
  w <- get ;;
  seed <- draw ;;
  pointwise (fun h => if training (model w) then dropout_mask seed h else h) x.

Definition call_out (x : Tracked (list hidden)) : M (Tracked (list R)) :=
  w <- get ;;
  h <- history "out" (out (model w)) (leaves x) ;;
  ret (mkTracked (map (linear_forward (values (out (model w)))) (value x)) h).

Definition forward (text : list (list Z)) : M (Tracked (list R)) :=
  embedded <- with_no_grad (call_bert text) ;;
  hidden <- call_rnn embedded ;;
  w <- get ;;
  hidden <- (if bidirectional (model w)
             then (joined <- pointwise (fun h => cat (h (-2)%Z) (h (-1)%Z)) hidden ;;
                   call_dropout joined)
             else (last <- pointwise (fun h => h (-1)%Z) hidden ;;
                   call_dropout last)) ;;
  output <- call_out hidden ;;
  ret output.

(** *** Gradients and the optimizer *)

(** [optimizer.zero_grad()] *)
Definition zero_grad_model (m : BERTGRUSentiment) : BERTGRUSentiment :=
  update_named (fun _ p => set_grad None p) m.

Definition zero_grad : M unit :=
  modify (fun w => with_model (zero_grad_model (model w)) w).

Definition accumulate (old : option tensor) (g : tensor) : option tensor :=
  match old with
  | None => Some g
  | Some a => Some (tensor_add a g)
  end.

(** [loss.backward()]: every parameter in the history of [loss] receives its
    gradient [g name]; a loss without history is refused. *)
Definition backward_model (history : list string) (g : string -> tensor)
           (m : BERTGRUSentiment) : BERTGRUSentiment :=
  update_named
    (fun name p =>
       if in_dec string_dec name history
       then set_grad (accumulate (grad p) (g name)) p
       else p)
    m.

Definition backward {A : Type} (loss : Tracked A) (g : string -> tensor) : M unit :=
  match leaves loss with
  | [] => raise RuntimeError
  | _ :: _ =>
      modify (fun w => with_model (backward_model (leaves loss) g (model w)) w)
  end.

(** Adam over the parameters of one sub-module: a parameter without
    gradient is skipped. *)
Fixpoint adam_params (owner : string) (st : opt_state) (ps : list (string * Param))
  : list (string * Param) * opt_state :=
  match ps with
  | [] => ([], st)
  | np :: ps' =>
      match grad (snd np) with
      | None =>
          let (rest, st') := adam_params owner st ps' in
          (np :: rest, st')
      | Some g =>
          let (d, st1) := adam_update st (qualify owner (fst np)) (data (snd np)) g in
          let (rest, st2) := adam_params owner st1 ps' in
          ((fst np, set_data d (snd np)) :: rest, st2)
      end
  end.

(** [optimizer.step()] for [optim.Adam(model.parameters())] (line 264) *)
Definition adam_step (st : opt_state) (m : BERTGRUSentiment)
  : BERTGRUSentiment * opt_state :=
  let (b, st1) := adam_params "bert" st (bert m) in
  let (r, st2) := adam_params "rnn" st1 (rnn m) in
  let (o, st3) := adam_params "out" st2 (out m) in
  ({| bert := b; rnn := r; out := o;
      bidirectional := bidirectional m;
      training := training m |}, st3).

Definition optimizer_step : M unit :=
  modify (fun w =>
    let (m', st') := adam_step (optimizer w) (model w) in
    with_optimizer st' (with_model m' w)).

(** *** Batches (lines 98-133) *)

(** An example as the dataset stores it: the ids of the cut token list and
    the label. *)
Definition Example : Type := (list Z * R)%type.

Definition Batch : Type := list Example.

(** What [TEXT] makes of a review: [tokenize_and_cut], then
    [convert_tokens_to_ids]. *)
Definition preprocess (sentence : string) : list Z :=
  convert_tokens_to_ids (tokenize_and_cut sentence).

(** [batch.text]: every row gets the begin and end ids and is padded to the
    longest row of the batch. *)
Definition batch_text (b : Batch) : list (list Z) :=
  let rows := map fst b in
  let max_len := fold_right Nat.max 0%nat (map (@length Z) rows) in
  map (fun x => [init_token_idx] ++ x ++ [eos_token_idx]
                  ++ repeat pad_token_idx (max_len - length x))
      rows.

(** [batch.label] *)
Definition batch_label (b : Batch) : list R := map snd b.

(** *** One epoch of training (lines 295-328) *)

Definition train_batch (criterion : list R -> list R -> R)
           (totals : R * R) (batch : Batch) : M (R * R) :=
  let text := batch_text batch in
  let labels := batch_label batch in
  zero_grad ;;
  w <- get ;;
  predictions <- forward text ;;
  h <- history EmptyString [] (leaves predictions) ;;
  let loss := mkTracked (criterion (value predictions) labels) h in
  acc <- lift (binary_accuracy (value predictions) labels) ;;
  backward loss
    (autograd criterion (state_dict (model w)) (training (model w))
              (generator w) text labels) ;;
  optimizer_step ;;
  ret ((fst totals + value loss)%R, (snd totals + acc)%R).

Definition train (iterator : list Batch) (criterion : list R -> list R -> R)
  : M (R * R) :=
  let epoch_loss := 0%R in
  let epoch_acc := 0%R in
  model_train ;;
  totals <- for_each iterator (epoch_loss, epoch_acc) (train_batch criterion) ;;
  l <- lift (py_div (fst totals) (len iterator)) ;;
  a <- lift (py_div (snd totals) (len iterator)) ;;
  ret (l, a).

(** *** One pass of evaluation (lines 330-356) *)

Definition evaluate_batch (criterion : list R -> list R -> R)
           (totals : R * R) (batch : Batch) : M (R * R) :=
  let text := batch_text batch in
  let labels := batch_label batch in
  predictions <- forward text ;;
  h <- history EmptyString [] (leaves predictions) ;;
  let loss := mkTracked (criterion (value predictions) labels) h in
  acc <- lift (binary_accuracy (value predictions) labels) ;;
  ret ((fst totals + value loss)%R, (snd totals + acc)%R).

Definition evaluate (iterator : list Batch) (criterion : list R -> list R -> R)
  : M (R * R) :=
  let epoch_loss := 0%R in
  let epoch_acc := 0%R in
  model_eval ;;
  totals <- with_no_grad
              (for_each iterator (epoch_loss, epoch_acc) (evaluate_batch criterion)) ;;
  l <- lift (py_div (fst totals) (len iterator)) ;;
  a <- lift (py_div (snd totals) (len iterator)) ;;
  ret (l, a).

(** *** Inference (lines 421-429) *)

(** [t.item()]: defined for a tensor with one element. *)
Definition item (t : list R) : Result R :=
  match t with
  | [x] => Ok x
  | _ => Raise RuntimeError
  end.

(** Lines 422-428: the tensor [prediction]. *)
Definition predict_prediction (sentence : string) : M (Tracked (list R)) :=
  model_eval ;;
  let indexed := predict_indexed sentence in
  let tensor := [indexed] in
  logits <- forward tensor ;;
  pointwise sigmoid logits.

Definition predict_sentiment (sentence : string) : M R :=
  prediction <- predict_prediction sentence ;;
  lift (item (value prediction)).

(** *** The epoch loop (lines 379-406) *)

(** The line group printed at the end of an epoch. *)
Record Report : Type := mkReport {
  report_epoch : nat;
  train_loss : R;
  train_acc : R;
  valid_loss : R;
  valid_acc : R
}.

(** One [torch.save(model.state_dict(), 'model.pt')]: what was written, and
    in which epoch and at which validation loss. *)
Record Save : Type := mkSave {
  save_epoch : nat;
  save_loss : R;
  save_state : list (string * tensor)
}.

(** The top level of the script: the interpreter state, the variable
    [best_valid_loss], the successive contents of the file [model.pt]
    (the last one is what the file holds) and the printed reports. *)
Record Script : Type := mkScript {
  world : World;
  best_valid_loss : pyfloat;
  model_pt : list Save;
  stdout : list Report
}.

Definition with_world (w : World) (s : Script) : Script :=
  {| world := w; best_valid_loss := best_valid_loss s;
     model_pt := model_pt s; stdout := stdout s |}.

Definition torch_save (epoch : nat) (loss : R) (s : Script) : Script :=
  {| world := world s; best_valid_loss := best_valid_loss s;
     model_pt := model_pt s ++ [mkSave epoch loss (state_dict (model (world s)))];
     stdout := stdout s |}.

Definition assign_best (b : pyfloat) (s : Script) : Script :=
  {| world := world s; best_valid_loss := b;
     model_pt := model_pt s; stdout := stdout s |}.

Definition print (r : Report) (s : Script) : Script :=
  {| world := world s; best_valid_loss := best_valid_loss s;
     model_pt := model_pt s; stdout := stdout s ++ [r] |}.

(** Body of the loop; the wall-clock readings only feed the printed line
    and are left out. *)
Definition epoch_body (train_iterator valid_iterator : list Batch)
           (criterion : list R -> list R -> R) (epoch : nat) (s : Script)
  : Result unit * Script :=
  match train train_iterator criterion (world s) with
  | (Raise e, w1) => (Raise e, with_world w1 s)
  | (Ok (tl, ta), w1) =>
      match evaluate valid_iterator criterion w1 with
      | (Raise e, w2) => (Raise e, with_world w2 s)
      | (Ok (vl, va), w2) =>
          let s1 := with_world w2 s in
          let s2 := if lt_float vl (best_valid_loss s1)
                    then torch_save epoch vl (assign_best (Finite vl) s1)
                    else s1 in
          (Ok tt, print (mkReport epoch tl ta vl va) s2)
      end
  end.

(** [for epoch in epochs: body] *)
Fixpoint epoch_loop (train_iterator valid_iterator : list Batch)
         (criterion : list R -> list R -> R) (epochs : list nat) (s : Script)
  : Result unit * Script :=
  match epochs with
  | [] => (Ok tt, s)
  | epoch :: rest =>
      match epoch_body train_iterator valid_iterator criterion epoch s with
      | (Ok _, s') => epoch_loop train_iterator valid_iterator criterion rest s'
      | (Raise e, s') => (Raise e, s')
      end
  end.

Definition N_EPOCHS : nat := 2.

Definition SEED : nat := 1234.

(** The state in which line 383 is reached: the prepared model, autograd
    on, Adam's initial state [adam0], nothing saved or printed. *)
Definition initial_world (weights : list (string * tensor))
           (init : string -> tensor) (adam0 : opt_state) : World :=
  {| model := prepare weights init; grad_enabled := true;
     optimizer := adam0; generator := SEED |}.

Definition initial_script (w : World) : Script :=
  {| world := w; best_valid_loss := Inf; model_pt := []; stdout := [] |}.

(** [range(n)] epochs from the initial script state. *)
Definition run (train_iterator valid_iterator : list Batch)
           (criterion : list R -> list R -> R) (n : nat) (w : World)
  : Result unit * Script :=
  epoch_loop train_iterator valid_iterator criterion (seq 0 n) (initial_script w).

(** *** Observations the statements below are written with *)

(** Name and tracking flag of each parameter of a sub-module. *)
Definition flags (ps : list (string * Param)) : list (string * bool) :=
  map (fun np => (fst np, requires_grad (snd np))) ps.

(** The tracked parameters of the head, in the order in which the forward
    pass meets them from the output backwards. *)
Definition head_tracked (m : BERTGRUSentiment) : list string :=
  tracked_names "out" (out m) ++ tracked_names "rnn" (rnn m).

(** Two models agree on which parameters exist and which are tracked. *)
Definition same_flags (m m' : BERTGRUSentiment) : Prop :=
  flags (bert m') = flags (bert m)
  /\ flags (rnn m') = flags (rnn m)
  /\ flags (out m') = flags (out m).

(** No parameter of the list holds a gradient. *)
Definition no_grads (ps : list (string * Param)) : Prop :=
  Forall (fun np => grad (snd np) = None) ps.

(** The state a forward pass leaves: in training mode its three stochastic
    layers have moved the generator. *)
Definition after_forward (w : World) : World :=
  with_generator (if training (model w) then 3 + generator w else generator w)%nat w.

(** The history of a loss computed from a forward pass in state [w]. *)
Definition loss_history (w : World) : list string :=
  if grad_enabled w then head_tracked (model w) else [].

(** The logits the forward pass returns in state [w]. *)
Definition logits (w : World) (text : list (list Z)) : list R :=
  match fst (forward text w) with
  | Ok t => value t
  | Raise _ => []
  end.

(** Loss and accuracy of one batch as computed in state [w]. *)
Definition batch_loss (criterion : list R -> list R -> R) (w : World) (b : Batch) : R :=
  criterion (logits w (batch_text b)) (batch_label b).

Definition batch_acc (w : World) (b : Batch) : R :=
  match binary_accuracy (logits w (batch_text b)) (batch_label b) with
  | Ok a => a
  | Raise _ => 0%R
  end.

(** The per-batch (loss, accuracy) pairs of a training epoch started in
    [w]: each batch is scored in the state the earlier updates have left. *)
Fixpoint train_trace (criterion : list R -> list R -> R) (iterator : list Batch)
         (w : World) : list (R * R) :=
  match iterator with
  | [] => []
  | b :: rest =>
      (batch_loss criterion w b, batch_acc w b)
        :: train_trace criterion rest (snd (train_batch criterion (0%R, 0%R) b w))
  end.

(** The state of an evaluation pass: evaluation mode, autograd off. *)
Definition eval_world (w : World) : World :=
  with_grad_enabled false (snd (model_eval w)).

(** [best_valid_loss] after one more validation loss [v]. *)
Definition improve (b : pyfloat) (v : R) : pyfloat :=
  if lt_float v b then Finite v else b.

(** The best validation loss among [vs], [float('inf')] when there is none:
    what [best_valid_loss] holds after epochs with these losses. *)
Definition running_best (vs : list R) : pyfloat := fold_left improve vs Inf.

(** The review scored on line 433. *)
Definition review_433 : string := "Avengers was great!!".

(** The epochs, counted from [i], whose validation loss is strictly below
    the best one before them (starting from [b]), each with its loss. *)
Fixpoint improvements_from (i : nat) (b : pyfloat) (vs : list R) : list (nat * R) :=
  match vs with
  | [] => []
  | v :: vs' =>
      if lt_float v b
      then (i, v) :: improvements_from (S i) (Finite v) vs'
      else improvements_from (S i) b vs'
  end.

Definition improvements (vs : list R) : list (nat * R) :=
  improvements_from 0 Inf vs.

(** Epoch and validation loss of every write to [model.pt], oldest first. *)
Definition checkpoints (s : Script) : list (nat * R) :=
  map (fun sv => (save_epoch sv, save_loss sv)) (model_pt s).

(** The validation losses printed so far, oldest first. *)
Definition valid_losses (s : Script) : list R := map valid_loss (stdout s).

(** What the epoch loop keeps true of the script state: the reports are
    numbered from 0, [best_valid_loss] is the best printed validation loss,
    and the writes to [model.pt] are the improvements among them. *)
Definition checkpoint_invariant (s : Script) : Prop :=
  map report_epoch (stdout s) = seq 0 (length (stdout s))
  /\ best_valid_loss s = running_best (valid_losses s)
  /\ checkpoints s = improvements (valid_losses s).

(** Which parameters a frozen encoder with a trainable head tracks. *)
Definition encoder_frozen (m : BERTGRUSentiment) : Prop :=
  Forall (fun np => requires_grad (snd np) = negb (prefix "bert" (fst np)))
         (named_parameters m).

End Script.

(** The number of examples whose rounded probability equals the label. *)
Definition correct_count (preds y : list R) : nat :=
  length (filter (fun py => Req_bool (torch_round (sigmoid (fst py))) (snd py))
                 (combine preds y)).

Arguments value {A} t.
Arguments leaves {A} t.
Arguments mkTracked {A} value leaves.
Arguments tracks_grad {A} t.

(** ** Small instances to run the definitions on *)

Module Toy.

(** One token per character; ids 101, 102, 0 and 100 for the special
    tokens as in the vocabulary of [bert-base-uncased]. *)
Definition characters (s : string) : list string :=
  map (fun c => String c EmptyString) (list_ascii_of_string s).

Definition id_of (t : string) : Z :=
  if string_dec t "[CLS]" then 101
  else if string_dec t "[SEP]" then 102
  else if string_dec t "[PAD]" then 0
  else if string_dec t "[UNK]" then 100
  else match t with
       | String c _ => 1000 + Z.of_nat (nat_of_ascii c)
       | EmptyString => 100
       end.

Definition tokenizer : Tokenizer :=
  {| token := string;
     tokenize := characters;
     convert_token_to_id := id_of;
     cls_token := "[CLS]"%string;
     sep_token := "[SEP]"%string;
     pad_token := "[PAD]"%string;
     unk_token := "[UNK]"%string |}.

(** Integer tensors; Adam replaced by a plain descent step that counts its
    calls. *)
Definition torch : Torch :=
  {| tensor := Z;
     embedding := Z;
     hidden := Z;
     opt_state := nat;
     bert_forward := fun ps _ _ ids => fold_right Z.add 0 ids;
     gru_forward := fun ps _ _ e i => e + i;
     cat := Z.add;
     dropout_mask := fun _ h => h;
     linear_forward := fun ps h => IZR (h + fold_right Z.add 0 (map snd ps));
     autograd := fun _ _ _ _ _ _ _ => 1;
     tensor_add := Z.add;
     adam_update := fun st _ d g => (d - g, S st) |}.

(** A review of 600 characters. *)
Definition long_review : string :=
  string_of_list_ascii (repeat "a"%char 600).

Definition weights : list (string * Z) :=
  [("embeddings.word_embeddings.weight"%string, 7);
   ("encoder.layer.0.output.dense.bias"%string, -3)].

Definition init (name : string) : Z := 1.

Definition world0 : World (th := torch) :=
  initial_world (th := torch) weights init 0%nat.

Definition criterion (preds labels : list R) : R := sum preds.

Definition batch1 : Batch := [([2023; 2003], 1%R)].

End Toy.

(** ** The rest of the script *)

Section Rest.
Context {tk : Tokenizer} {th : Torch}.

(** Lines 223-224; [numel] gives the number of elements of a tensor. *)
Definition count_trainable_parameters (numel : tensor -> Z) (m : BERTGRUSentiment) : Z :=
  fold_right Z.add 0
    (map (fun p => numel (data p)) (filter requires_grad (parameters m))).

(** The share of one sub-module in that count. *)
Definition tracked_elements (numel : tensor -> Z) (ps : list (string * Param)) : Z :=
  fold_right Z.add 0
    (map (fun p => numel (data p)) (filter requires_grad (map snd ps))).

(** Name and gradient of each parameter of a sub-module. *)
Definition grads (ps : list (string * Param)) : list (string * option tensor) :=
  map (fun np => (fst np, grad (snd np))) ps.

(** *** Restoring the checkpoint and testing (lines 410-412) *)

(** [sd[name]] in a state dictionary *)
Fixpoint lookup (name : string) (sd : list (string * tensor)) : option tensor :=
  match sd with
  | [] => None
  | kv :: sd' => if string_dec name (fst kv) then Some (snd kv) else lookup name sd'
  end.

(** The copy of the stored values into the parameters of one sub-module; a
    parameter without entry keeps its value. *)
Definition load_params (owner : string) (sd : list (string * tensor))
           (ps : list (string * Param)) : list (string * Param) :=
  map (fun np =>
         match lookup (qualify owner (fst np)) sd with
         | Some d => (fst np, set_data d (snd np))
         | None => np
         end)
      ps.

Definition load_model (sd : list (string * tensor)) (m : BERTGRUSentiment)
  : BERTGRUSentiment :=
  {| bert := load_params "bert" sd (bert m);
     rnn := load_params "rnn" sd (rnn m);
     out := load_params "out" sd (out m);
     bidirectional := bidirectional m;
     training := training m |}.

Definition has_key (k : string) (ks : list string) : bool :=
  if in_dec string_dec k ks then true else false.

(** No key of the model is missing and no key of the dictionary is
    unexpected. *)
Definition keys_match (sd : list (string * tensor)) (m : BERTGRUSentiment) : bool :=
  let mine := map fst (named_parameters m) in
  let theirs := map fst sd in
  forallb (fun k => has_key k theirs) mine && forallb (fun k => has_key k mine) theirs.

(** [model.load_state_dict(sd)]: the entries that have a parameter are
    copied, then a mismatch of the key sets is reported. *)
Definition load_state_dict (sd : list (string * tensor)) : M unit :=
  fun w =>
    (if keys_match sd (model w) then Ok tt else Raise RuntimeError,
     with_model (load_model sd (model w)) w).

(** What can stop the last part of the script: no file to read, or an
    exception of the interpreter. *)
Inductive ScriptError : Type :=
| FileNotFoundError
| Raised (e : Exception).

(** [torch.load('model.pt')]: the last state written, if any. *)
Definition torch_load (s : Script) : option (list (string * tensor)) :=
  match rev (model_pt s) with
  | [] => None
  | sv :: _ => Some (save_state sv)
  end.

(** Lines 410-412: restore the checkpoint, then evaluate on the test set. *)
Definition final_test (test_iterator : list Batch)
           (criterion : list R -> list R -> R) (s : Script)
  : (ScriptError + R * R) * Script :=
  match torch_load s with
  | None => (inl FileNotFoundError, s)
  | Some sd =>
      match load_state_dict sd (world s) with
      | (Raise e, w1) => (inl (Raised e), with_world w1 s)
      | (Ok _, w1) =>
          match evaluate test_iterator criterion w1 with
          | (Raise e, w2) => (inl (Raised e), with_world w2 s)
          | (Ok r, w2) => (inr r, with_world w2 s)
          end
      end
  end.


(** Lines 383-412: the epochs, then the test. *)
Definition train_and_test (train_iterator valid_iterator test_iterator : list Batch)
           (criterion : list R -> list R -> R) (n : nat) (w : World)
  : (ScriptError + R * R) * Script :=
  match run train_iterator valid_iterator criterion n w with
  | (Raise e, s) => (inl (Raised e), s)
  | (Ok _, s) => final_test test_iterator criterion s
  end.

End Rest.

(** *** Elapsed time (lines 360-364 and 396, 404) *)





Module ToyData.

(** [Toy.long_review] with one more character at the end. *)
Definition longer_review : string :=
  string_of_list_ascii (repeat "a"%char 600 ++ ["b"%char]).

Definition numel (t : Z) : Z := 1.

Definition batch2 : Batch := [([2023], 0%R); ([2023; 2003; 1037], 1%R)].

End ToyData.

(** * Properties *)

(** ** Slicing and the sequence given to the model *)

Lemma py_slice_to_nonneg {A : Type} (l : list A) (k : Z) :
  0 <= k -> py_slice_to l k = firstn (Z.to_nat k) l.
Proof.
  intros Hk. unfold py_slice_to.
  destruct (k <? 0) eqn:E; [apply Z.ltb_lt in E; lia | reflexivity].
Qed.

Lemma len_py_slice_to {A : Type} (l : list A) (k : Z) :
  0 <= k -> len (py_slice_to l k) = Z.min k (len l).
Proof.
  intros Hk. rewrite py_slice_to_nonneg by assumption.
  unfold len. rewrite length_firstn. lia.
Qed.

Section TokenizationFacts.
Context {tk : Tokenizer}.

Lemma len_convert_tokens_to_ids (ts : list token) :
  len (convert_tokens_to_ids ts) = len ts.
Proof. unfold len, convert_tokens_to_ids. now rewrite length_map. Qed.

Lemma len_predict_tokens (sentence : string) :
  len (predict_tokens sentence)
  = Z.min (max_input_length - 2) (len (tokenize sentence)).
Proof.
  unfold predict_tokens. apply len_py_slice_to. unfold max_input_length. lia.
Qed.

Lemma len_predict_indexed (sentence : string) :
  len (predict_indexed sentence) = len (predict_tokens sentence) + 2.
Proof.
  unfold predict_indexed, len. rewrite !length_app. simpl.
  fold (len (convert_tokens_to_ids (predict_tokens sentence))).
  pose proof (len_convert_tokens_to_ids (predict_tokens sentence)) as H.
  unfold len in *. lia.
Qed.

(** C1. When a sentence has more than [max_input_length - 2] tokens,
    [predict_sentiment] keeps exactly the first [max_input_length - 2] of
    them, so the id sequence it builds is the begin id, that many content
    ids and the end id, [max_input_length] ids in all; for any sentence the
    sequence has at most [max_input_length] ids, it is the sequence the
    forward pass receives, and [tokenize_and_cut] cuts in the same way. *)
Theorem predict_sentiment_truncates (sentence : string) :
  (len (tokenize sentence) > max_input_length - 2 ->
   exists content : list Z,
     predict_indexed sentence = [init_token_idx] ++ content ++ [eos_token_idx]
     /\ content = convert_tokens_to_ids
                    (firstn (Z.to_nat (max_input_length - 2)) (tokenize sentence))
     /\ len content = max_input_length - 2
     /\ len (predict_indexed sentence) = max_input_length)
  /\ len (predict_indexed sentence) <= max_input_length
  /\ tokenize_and_cut sentence = predict_tokens sentence
  /\ len (tokenize_and_cut sentence) <= max_input_length - 2.
Proof.
  pose proof (len_predict_tokens sentence) as Hlen.
  pose proof (len_predict_indexed sentence) as Hidx.
  split; [| split; [| split]].
  - intros Hlong.
    exists (convert_tokens_to_ids (predict_tokens sentence)).
    split; [reflexivity |]. split; [| split].
    + unfold predict_tokens.
      rewrite py_slice_to_nonneg by (unfold max_input_length; lia).
      reflexivity.
    + rewrite len_convert_tokens_to_ids. lia.
    + lia.
  - lia.
  - reflexivity.
  - unfold tokenize_and_cut. fold (predict_tokens sentence). lia.
Qed.

End TokenizationFacts.

(** C1 at a review of 600 characters under the character tokenizer. *)
Lemma predict_sentiment_truncates_witness :
  len (tokenize (Tokenizer := Toy.tokenizer) Toy.long_review) > max_input_length - 2
  /\ exists content : list Z,
       predict_indexed (tk := Toy.tokenizer) Toy.long_review
       = [init_token_idx (tk := Toy.tokenizer)] ++ content
           ++ [eos_token_idx (tk := Toy.tokenizer)]
       /\ content = convert_tokens_to_ids (tk := Toy.tokenizer)
                      (firstn (Z.to_nat (max_input_length - 2))
                              (tokenize (Tokenizer := Toy.tokenizer) Toy.long_review))
       /\ len content = max_input_length - 2
       /\ len (predict_indexed (tk := Toy.tokenizer) Toy.long_review)
          = max_input_length.
Proof.
  assert (H : len (tokenize (Tokenizer := Toy.tokenizer) Toy.long_review)
              > max_input_length - 2) by (vm_compute; reflexivity).
  split; [exact H |].
  exact (proj1 (predict_sentiment_truncates (tk := Toy.tokenizer) Toy.long_review) H).
Defined.

(** ** Sigmoid, rounding and accuracy *)

Lemma sigmoid_range (x : R) : (0 < sigmoid x < 1)%R.
Proof.
  unfold sigmoid. pose proof (exp_pos (- x)) as He.
  assert (Hd : (1 < 1 + exp (- x))%R) by lra.
  split.
  - apply Rdiv_lt_0_compat; lra.
  - apply (Rmult_lt_reg_r (1 + exp (- x))); [lra |].
    unfold Rdiv. rewrite Rmult_assoc, Rinv_l by lra. lra.
Qed.

Lemma sigmoid_zero : sigmoid 0 = (1 / 2)%R.
Proof. unfold sigmoid. rewrite Ropp_0, exp_0. lra. Qed.

Lemma Int_part_half : Int_part (1 / 2) = 0%Z.
Proof.
  unfold Int_part.
  assert (H : 1%Z = up (1 / 2)) by (apply tech_up; simpl; lra).
  rewrite <- H. reflexivity.
Qed.

Lemma torch_round_half : torch_round (1 / 2) = 0%R.
Proof.
  unfold torch_round. rewrite Int_part_half. simpl.
  destruct (Rlt_dec (1 / 2 - 0) (1 / 2)) as [H | H]; [lra |].
  destruct (Rlt_dec (1 / 2) (1 / 2 - 0)) as [H' | H']; [lra | reflexivity].
Qed.

Lemma sum_indicator {A : Type} (f : A -> bool) (l : list A) :
  sum (map to_float (map f l)) = INR (length (filter f l)).
Proof.
  induction l as [| a l IH]; [reflexivity |].
  cbn [map sum filter]. rewrite IH.
  destruct (f a); cbn [to_float length].
  - rewrite S_INR. lra.
  - lra.
Qed.

Lemma tensor_eq_same_shape (a b : list R) :
  length a = length b ->
  tensor_eq a b = Ok (map (fun xy => Req_bool (fst xy) (snd xy)) (combine a b)).
Proof.
  intros H. unfold tensor_eq. rewrite H, Nat.eqb_refl. reflexivity.
Qed.

Lemma combine_map_l {A B C : Type} (f : A -> C) (l : list A) (l' : list B) :
  combine (map f l) l' = map (fun xy => (f (fst xy), snd xy)) (combine l l').
Proof.
  revert l'. induction l as [| a l IH]; intros [| b l']; try reflexivity.
  cbn. now rewrite IH.
Qed.

Lemma binary_accuracy_same_shape (preds y : list R) :
  length preds = length y ->
  binary_accuracy preds y
  = Ok (INR (correct_count preds y) / INR (length preds))%R.
Proof.
  intros H. unfold binary_accuracy.
  rewrite tensor_eq_same_shape by (now rewrite !length_map).
  unfold mean, correct_count.
  rewrite !combine_map_l, !map_map. cbn [fst snd].
  rewrite !length_map, length_combine, <- H, Nat.min_id.
  rewrite <- (map_map (fun py => Req_bool (torch_round (sigmoid (fst py))) (snd py)) to_float).
  rewrite sum_indicator. reflexivity.
Qed.

(** C7. On tensors of equal shape [binary_accuracy] is the number of examples
    whose rounded sigmoid equals the label, divided by the number of
    examples, that is the mean of the indicator of
    [round(sigmoid(pred)) == label].  At the decision boundary the rounded
    prediction is fixed: a logit of 0 has sigmoid 1/2 and rounds to 0, so it
    counts as correct for label 0 and as wrong for label 1; and the function
    has one result per input. *)
Theorem binary_accuracy_is_mean_of_indicator (preds y : list R) :
  length preds = length y ->
  binary_accuracy preds y
  = Ok (INR (correct_count preds y) / INR (length preds))%R
  /\ binary_accuracy preds y
     = Ok (mean (map (fun py => to_float (Req_bool (torch_round (sigmoid (fst py)))
                                                   (snd py)))
                     (combine preds y)))
  /\ torch_round (sigmoid 0) = 0%R
  /\ binary_accuracy [0%R] [0%R] = Ok 1%R
  /\ binary_accuracy [0%R] [1%R] = Ok 0%R
  /\ (forall r1 r2 : Result R,
        binary_accuracy preds y = r1 -> binary_accuracy preds y = r2 -> r1 = r2).
Proof.
  intros H.
  assert (Hb : torch_round (sigmoid 0) = 0%R)
    by (rewrite sigmoid_zero; apply torch_round_half).
  split; [now apply binary_accuracy_same_shape |].
  split.
  { unfold binary_accuracy.
    rewrite tensor_eq_same_shape by (now rewrite !length_map).
    rewrite !combine_map_l, !map_map. reflexivity. }
  split; [exact Hb |].
  split.
  { unfold binary_accuracy, tensor_eq, mean. cbn. rewrite Hb.
    unfold Req_bool. destruct (Req_dec_T 0 0) as [_ | Hn]; [| contradiction].
    cbn. f_equal. lra. }
  split.
  { unfold binary_accuracy, tensor_eq, mean. cbn. rewrite Hb.
    unfold Req_bool. destruct (Req_dec_T 0 1) as [Hn | _]; [lra |].
    cbn. f_equal. lra. }
  intros r1 r2 H1 H2. congruence.
Qed.

(** C7 on two examples: logits 0 and 0 against labels 0 and 1. *)
Lemma binary_accuracy_is_mean_of_indicator_witness :
  length [0%R; 0%R] = length [0%R; 1%R]
  /\ binary_accuracy [0%R; 0%R] [0%R; 1%R]
     = Ok (INR (correct_count [0%R; 0%R] [0%R; 1%R]) / INR (length [0%R; 0%R]))%R.
Proof.
  split; [reflexivity |].
  exact (proj1 (binary_accuracy_is_mean_of_indicator [0%R; 0%R] [0%R; 1%R] eq_refl)).
Defined.

(** ** Parameters under the mutations of a training step *)

Section ModelFacts.
Context {th : Torch}.

Lemma flags_update (owner : string) (f : string -> Param -> Param)
      (ps : list (string * Param)) :
  (forall name p, requires_grad (f name p) = requires_grad p) ->
  flags (map (fun np => (fst np, f (qualify owner (fst np)) (snd np))) ps) = flags ps.
Proof.
  intros Hf. unfold flags. rewrite map_map. apply map_ext.
  intros [n p]. cbn. now rewrite Hf.
Qed.

Lemma same_flags_refl (m : BERTGRUSentiment) : same_flags m m.
Proof. repeat split. Qed.

Lemma same_flags_trans (m1 m2 m3 : BERTGRUSentiment) :
  same_flags m1 m2 -> same_flags m2 m3 -> same_flags m1 m3.
Proof.
  intros (A1 & A2 & A3) (B1 & B2 & B3). repeat split; congruence.
Qed.

Lemma same_flags_update_named (f : string -> Param -> Param) (m : BERTGRUSentiment) :
  (forall name p, requires_grad (f name p) = requires_grad p) ->
  same_flags m (update_named f m).
Proof.
  intros Hf. unfold same_flags, update_named. cbn [bert rnn out].
  repeat split; now apply flags_update.
Qed.

Lemma same_flags_set_training (b : bool) (m : BERTGRUSentiment) :
  same_flags m (set_training b m).
Proof. repeat split. Qed.

Lemma same_flags_zero_grad (m : BERTGRUSentiment) : same_flags m (zero_grad_model m).
Proof. apply same_flags_update_named. reflexivity. Qed.

Lemma same_flags_backward (lv : list string) (g : string -> tensor)
      (m : BERTGRUSentiment) :
  same_flags m (backward_model lv g m).
Proof.
  apply same_flags_update_named. intros name p.
  destruct (in_dec string_dec name lv); reflexivity.
Qed.

Lemma flags_adam_params (owner : string) (ps : list (string * Param)) :
  forall st, flags (fst (adam_params owner st ps)) = flags ps.
Proof.
  induction ps as [| [n p] ps IH]; intros st; [reflexivity |].
  cbn [adam_params fst snd]. destruct (grad p) as [g |].
  - destruct (adam_update st (qualify owner n) (data p) g) as [d st1].
    specialize (IH st1). destruct (adam_params owner st1 ps) as [rest st2].
    cbn in *. now rewrite IH.
  - specialize (IH st). destruct (adam_params owner st ps) as [rest st'].
    cbn in *. now rewrite IH.
Qed.

Lemma adam_params_no_grads (owner : string) (ps : list (string * Param)) :
  no_grads ps -> forall st, adam_params owner st ps = (ps, st).
Proof.
  unfold no_grads. induction 1 as [| [n p] ps Hp _ IH]; intros st; [reflexivity |].
  cbn [adam_params fst snd] in *. rewrite Hp, IH. reflexivity.
Qed.

Lemma adam_step_fields (st : opt_state) (m : BERTGRUSentiment) :
  exists st1 st2,
    bert (fst (adam_step st m)) = fst (adam_params "bert" st (bert m))
    /\ rnn (fst (adam_step st m)) = fst (adam_params "rnn" st1 (rnn m))
    /\ out (fst (adam_step st m)) = fst (adam_params "out" st2 (out m))
    /\ bidirectional (fst (adam_step st m)) = bidirectional m
    /\ training (fst (adam_step st m)) = training m.
Proof.
  unfold adam_step.
  destruct (adam_params "bert" st (bert m)) as [b st1].
  destruct (adam_params "rnn" st1 (rnn m)) as [r st2] eqn:Er.
  destruct (adam_params "out" st2 (out m)) as [o st3] eqn:Eo.
  exists st1, st2. rewrite Er, Eo. repeat split.
Qed.

Lemma same_flags_adam_step (st : opt_state) (m : BERTGRUSentiment) :
  same_flags m (fst (adam_step st m)).
Proof.
  destruct (adam_step_fields st m) as (st1 & st2 & Hb & Hr & Ho & _).
  unfold same_flags. rewrite Hb, Hr, Ho, !flags_adam_params. repeat split.
Qed.

Lemma tracked_names_flags (owner : string) (ps : list (string * Param)) :
  tracked_names owner ps
  = map (fun nb => qualify owner (fst nb)) (filter snd (flags ps)).
Proof.
  unfold tracked_names, qualified, flags.
  induction ps as [| [n p] ps IH]; [reflexivity |].
  cbn. destruct (requires_grad p); cbn; now rewrite IH.
Qed.

Lemma head_tracked_same_flags (m m' : BERTGRUSentiment) :
  same_flags m m' -> head_tracked m' = head_tracked m.
Proof.
  intros (_ & Hr & Ho). unfold head_tracked.
  now rewrite !tracked_names_flags, Hr, Ho.
Qed.

Lemma tracked_names_qualified (owner : string) (ps : list (string * Param))
      (name : string) :
  In name (tracked_names owner ps) -> exists n, name = qualify owner n.
Proof.
  rewrite tracked_names_flags. intros H. apply in_map_iff in H.
  destruct H as (nb & <- & _). now exists (fst nb).
Qed.

Lemma head_tracked_not_bert (m : BERTGRUSentiment) (n : string) :
  ~ In (qualify "bert" n) (head_tracked m).
Proof.
  unfold head_tracked. intros H. apply in_app_or in H.
  destruct H as [H | H]; apply tracked_names_qualified in H;
    destruct H as (n' & H); unfold qualify in H; cbn in H; discriminate.
Qed.

Lemma bert_backward (lv : list string) (g : string -> tensor) (m : BERTGRUSentiment) :
  (forall n, ~ In (qualify "bert" n) lv) ->
  bert (backward_model lv g m) = bert m.
Proof.
  intros Hlv. unfold backward_model, update_named. cbn [bert].
  rewrite <- (map_id (bert m)) at 2. apply map_ext. intros [n p]. cbn [fst snd].
  destruct (in_dec string_dec (qualify "bert" n) lv) as [Hin | _];
    [now apply Hlv in Hin | reflexivity].
Qed.

Lemma no_grads_zero_grad (m : BERTGRUSentiment) : no_grads (bert (zero_grad_model m)).
Proof.
  unfold no_grads, zero_grad_model, update_named. cbn [bert].
  apply Forall_forall. intros np H. apply in_map_iff in H.
  destruct H as (x & <- & _). reflexivity.
Qed.

Lemma values_zero_grad (m : BERTGRUSentiment) :
  values (bert (zero_grad_model m)) = values (bert m)
  /\ values (rnn (zero_grad_model m)) = values (rnn m)
  /\ values (out (zero_grad_model m)) = values (out m).
Proof.
  unfold zero_grad_model, update_named. cbn [bert rnn out].
  repeat split; unfold values; rewrite map_map; apply map_ext; now intros [n p].
Qed.

(** One optimisation step after [zero_grad]: whatever history the loss
    has among the head's parameters, the encoder's parameters come out as
    [zero_grad] left them. *)
Lemma bert_after_step (lv : list string) (g : string -> tensor) (st : opt_state)
      (m : BERTGRUSentiment) :
  (forall n, ~ In (qualify "bert" n) lv) ->
  bert (fst (adam_step st (backward_model lv g (zero_grad_model m))))
  = bert (zero_grad_model m).
Proof.
  intros Hlv.
  destruct (adam_step_fields st (backward_model lv g (zero_grad_model m)))
    as (st1 & st2 & Hb & _).
  rewrite Hb, bert_backward by assumption.
  now rewrite adam_params_no_grads by apply no_grads_zero_grad.
Qed.

End ModelFacts.

(** ** The forward pass and one training step on the state *)

Section StateFacts.
Context {tk : Tokenizer} {th : Torch}.

Lemma forward_run (text : list (list Z)) (w : World) :
  forward text w
  = (Ok (mkTracked (logits w text)
                   (if grad_enabled w then head_tracked (model w) else [])),
     after_forward w).
Proof.
  destruct w as [[be r o bi tr] g opt n].
  unfold logits, head_tracked, after_forward.
  cbv [forward bind with_no_grad call_bert call_rnn call_out call_dropout
       pointwise history get ret draw].
  cbn [model grad_enabled optimizer generator training bidirectional bert rnn out
       with_generator with_grad_enabled fst snd value leaves tracked_names
       qualified map filter app].
  destruct tr, bi, g; cbn; rewrite ?app_nil_r; reflexivity.
Qed.

Lemma logits_congr (text : list (list Z)) (w1 w2 : World) :
  values (bert (model w1)) = values (bert (model w2)) ->
  values (rnn (model w1)) = values (rnn (model w2)) ->
  values (out (model w1)) = values (out (model w2)) ->
  training (model w1) = training (model w2) ->
  bidirectional (model w1) = bidirectional (model w2) ->
  generator w1 = generator w2 ->
  logits w1 text = logits w2 text.
Proof.
  destruct w1 as [[be1 r1 o1 bi1 tr1] g1 opt1 n1].
  destruct w2 as [[be2 r2 o2 bi2 tr2] g2 opt2 n2].
  cbn [model bert rnn out training bidirectional generator].
  intros Hb Hr Ho -> -> ->.
  unfold logits.
  destruct tr2, bi2;
    cbv [forward bind with_no_grad call_bert call_rnn call_out call_dropout
         pointwise history get ret draw];
    cbn [model grad_enabled optimizer generator training bidirectional bert rnn out
         with_generator with_grad_enabled fst snd value leaves];
    rewrite Hb, Hr, Ho; reflexivity.
Qed.

Lemma length_logits (text : list (list Z)) (w : World) :
  length (logits w text) = length text.
Proof.
  destruct w as [[be r o bi tr] g opt n].
  unfold logits.
  destruct tr, bi;
    cbv [forward bind with_no_grad call_bert call_rnn call_out call_dropout
         pointwise history get ret draw];
    cbn [model grad_enabled optimizer generator training bidirectional bert rnn out
         with_generator with_grad_enabled fst snd value leaves];
    now rewrite !length_map.
Qed.

Lemma logits_zero_grad (text : list (list Z)) (w : World) :
  logits (with_model (zero_grad_model (model w)) w) text = logits w text.
Proof.
  destruct (values_zero_grad (model w)) as (Hb & Hr & Ho).
  apply logits_congr; cbn [model with_model generator]; try assumption; reflexivity.
Qed.

Lemma length_batch_text (b : Batch) : length (batch_text b) = length b.
Proof. unfold batch_text. now rewrite !length_map. Qed.

Lemma length_batch_label (b : Batch) : length (batch_label b) = length b.
Proof. unfold batch_label. now rewrite length_map. Qed.

(** On a batch the accuracy is always defined: logits and labels have the
    batch's length. *)
Lemma binary_accuracy_batch (w : World) (b : Batch) :
  binary_accuracy (logits w (batch_text b)) (batch_label b) = Ok (batch_acc w b).
Proof.
  unfold batch_acc.
  rewrite binary_accuracy_same_shape
    by (now rewrite length_logits, length_batch_text, length_batch_label).
  reflexivity.
Qed.

Lemma backward_run {A : Type} (loss : Tracked A) (g : string -> tensor) (w : World) :
  backward loss g w
  = match leaves loss with
    | [] => (Raise RuntimeError, w)
    | _ :: _ => (Ok tt, with_model (backward_model (leaves loss) g (model w)) w)
    end.
Proof. unfold backward. now destruct (leaves loss). Qed.

Lemma optimizer_step_run (w : World) :
  optimizer_step w
  = (Ok tt,
     with_optimizer (snd (adam_step (optimizer w) (model w)))
                    (with_model (fst (adam_step (optimizer w) (model w))) w)).
Proof.
  unfold optimizer_step, modify. now destruct (adam_step (optimizer w) (model w)).
Qed.

Lemma loss_history_zero_grad (w : World) :
  (if grad_enabled (after_forward (with_model (zero_grad_model (model w)) w))
   then tracked_names EmptyString [] ++
        (if grad_enabled (with_model (zero_grad_model (model w)) w)
         then head_tracked (model (with_model (zero_grad_model (model w)) w))
         else [])
   else [])
  = loss_history w.
Proof.
  unfold loss_history. cbn [grad_enabled after_forward with_model with_generator model].
  rewrite (head_tracked_same_flags _ _ (same_flags_zero_grad (model w))).
  now destruct (grad_enabled w).
Qed.

Lemma loss_history_not_bert (w : World) (n : string) :
  ~ In (qualify "bert" n) (loss_history w).
Proof.
  unfold loss_history. destruct (grad_enabled w); [apply head_tracked_not_bert |].
  intros [].
Qed.

Ltac enter_train_batch :=
  unfold train_batch, zero_grad;
  cbv [bind modify get]; rewrite forward_run;
  cbv [history bind get ret lift]; cbn [value leaves];
  rewrite logits_zero_grad, binary_accuracy_batch, backward_run;
  cbn [value leaves]; rewrite loss_history_zero_grad.

(** What a training step returns: with autograd on and a tracked head
    parameter, the running totals plus the batch's loss and accuracy. *)
Lemma train_batch_returns (crit : list R -> list R -> R) (totals : R * R)
      (b : Batch) (w : World) :
  loss_history w <> [] ->
  fst (train_batch crit totals b w)
  = Ok ((fst totals + batch_loss crit w b)%R, (snd totals + batch_acc w b)%R).
Proof.
  intros Hh. enter_train_batch.
  destruct (loss_history w) as [| n lv]; [contradiction |].
  rewrite optimizer_step_run. reflexivity.
Qed.

Lemma train_batch_refused (crit : list R -> list R -> R) (totals : R * R)
      (b : Batch) (w : World) :
  loss_history w = [] ->
  fst (train_batch crit totals b w) = Raise RuntimeError.
Proof.
  intros Hh. enter_train_batch. now rewrite Hh.
Qed.

(** The state after a training step does not depend on the totals. *)
Lemma train_batch_state (crit : list R -> list R -> R) (t1 t2 : R * R)
      (b : Batch) (w : World) :
  snd (train_batch crit t1 b w) = snd (train_batch crit t2 b w).
Proof.
  enter_train_batch.
  destruct (loss_history w) as [| n lv]; [reflexivity |].
  rewrite optimizer_step_run. reflexivity.
Qed.

(** What a training step leaves alone, whether it returns or raises. *)
Lemma train_batch_frame (crit : list R -> list R -> R) (totals : R * R)
      (b : Batch) (w : World) :
  let w' := snd (train_batch crit totals b w) in
  same_flags (model w) (model w')
  /\ values (bert (model w')) = values (bert (model w))
  /\ grad_enabled w' = grad_enabled w
  /\ training (model w') = training (model w)
  /\ bidirectional (model w') = bidirectional (model w).
Proof.
  enter_train_batch.
  pose proof (loss_history_not_bert w) as Hnb.
  destruct (values_zero_grad (model w)) as (Hv & _).
  destruct (loss_history w) as [| n lv] eqn:Eh.
  - cbn [snd after_forward with_model with_generator model grad_enabled].
    split; [apply same_flags_zero_grad |]. repeat split. exact Hv.
  - rewrite optimizer_step_run.
    cbn [snd after_forward with_model with_generator with_optimizer model
         grad_enabled optimizer].
    set (g := autograd _ _ _ _ _ _).
    set (st := optimizer w).
    destruct (adam_step_fields st (backward_model (n :: lv) g (zero_grad_model (model w))))
      as (st1 & st2 & _ & _ & _ & Hbi & Htr).
    split.
    { eapply same_flags_trans; [apply same_flags_zero_grad |].
      eapply same_flags_trans; [apply same_flags_backward |].
      apply same_flags_adam_step. }
    split; [now rewrite bert_after_step |].
    split; [reflexivity |].
    split; [rewrite Htr | rewrite Hbi]; reflexivity.
Qed.

End StateFacts.

(** ** The training and evaluation loops *)

Section LoopFacts.
Context {tk : Tokenizer} {th : Torch}.

Lemma loss_history_frame (w w' : World) :
  same_flags (model w) (model w') -> grad_enabled w' = grad_enabled w ->
  loss_history w' = loss_history w.
Proof.
  intros Hf Hg. unfold loss_history.
  now rewrite Hg, (head_tracked_same_flags _ _ Hf).
Qed.

Lemma IZR_len {A : Type} (l : list A) : IZR (len l) = INR (length l).
Proof. unfold len. now rewrite INR_IZR_INZ. Qed.

Lemma py_div_len {A : Type} (x : R) (l : list A) :
  l <> [] -> py_div x (len l) = Ok (x / INR (length l))%R.
Proof.
  intros Hl. unfold py_div.
  destruct (len l =? 0) eqn:E.
  - apply Z.eqb_eq in E. destruct l; [contradiction | discriminate].
  - now rewrite IZR_len.
Qed.

Lemma length_train_trace (crit : list R -> list R -> R) (it : list Batch) :
  forall w, length (train_trace crit it w) = length it.
Proof. induction it as [| b it IH]; intros w; cbn; [| rewrite IH]; reflexivity. Qed.

(** The loop of [train]: the totals grow by the sums over the trace. *)
Lemma train_loop (crit : list R -> list R -> R) (it : list Batch) :
  forall (totals : R * R) (w : World),
    loss_history w <> [] ->
    fst (for_each it totals (train_batch crit) w)
    = Ok ((fst totals + sum (map fst (train_trace crit it w)))%R,
          (snd totals + sum (map snd (train_trace crit it w)))%R).
Proof.
  induction it as [| b it IH]; intros totals w Hh.
  - destruct totals as [l a]. cbn [for_each train_trace map sum fst snd]. unfold ret.
    cbn [fst]. do 2 f_equal; lra.
  - cbn [for_each train_trace map sum fst snd]. unfold bind.
    pose proof (train_batch_returns crit totals b w Hh) as Hr.
    pose proof (train_batch_state crit totals (0%R, 0%R) b w) as Hs.
    pose proof (train_batch_frame crit totals b w) as (Hf & _ & Hg & _).
    destruct (train_batch crit totals b w) as [r w'].
    cbn [fst snd] in Hr, Hs, Hf, Hg. subst r. rewrite <- Hs.
    rewrite IH by (rewrite (loss_history_frame w w'); assumption).
    cbn [fst snd]. do 2 f_equal; lra.
Qed.

(** What the loop of [train] leaves alone. *)
Lemma train_loop_frame (crit : list R -> list R -> R) (it : list Batch) :
  forall (totals : R * R) (w : World),
    let w' := snd (for_each it totals (train_batch crit) w) in
    same_flags (model w) (model w')
    /\ values (bert (model w')) = values (bert (model w))
    /\ grad_enabled w' = grad_enabled w
    /\ training (model w') = training (model w)
    /\ bidirectional (model w') = bidirectional (model w).
Proof.
  induction it as [| b it IH]; intros totals w.
  - cbn. repeat split.
  - cbn [for_each]. unfold bind.
    pose proof (train_batch_frame crit totals b w) as (Hf & Hv & Hg & Ht & Hb).
    destruct (train_batch crit totals b w) as [[a | e] w1]; cbn [snd] in *.
    + destruct (IH a w1) as (Hf' & Hv' & Hg' & Ht' & Hb').
      split; [eapply same_flags_trans; eassumption |].
      repeat split; congruence.
    + split; [exact Hf |]. repeat split; assumption.
Qed.

Lemma train_frame (it : list Batch) (crit : list R -> list R -> R) (w : World) :
  let w' := snd (train it crit w) in
  same_flags (model w) (model w')
  /\ values (bert (model w')) = values (bert (model w))
  /\ grad_enabled w' = grad_enabled w
  /\ training (model w') = true
  /\ bidirectional (model w') = bidirectional (model w).
Proof.
  unfold train, model_train. cbv [bind modify].
  set (w0 := with_model (set_training true (model w)) w).
  pose proof (train_loop_frame crit it (0%R, 0%R) w0) as (Hf & Hv & Hg & Ht & Hb).
  destruct (for_each it (0%R, 0%R) (train_batch crit) w0) as [[totals | e] w1];
    cbn [snd] in *.
  - unfold lift.
    destruct (py_div (fst totals) (len it)); [destruct (py_div (snd totals) (len it)) |];
      cbn [snd]; (split; [exact Hf |]); repeat split; assumption.
  - split; [exact Hf |]. repeat split; assumption.
Qed.

Lemma after_forward_eval (w : World) :
  training (model w) = false -> after_forward w = w.
Proof.
  destruct w as [m g o n]. unfold after_forward. cbn. now intros ->.
Qed.

Lemma evaluate_batch_run (crit : list R -> list R -> R) (totals : R * R)
      (b : Batch) (w : World) :
  training (model w) = false ->
  evaluate_batch crit totals b w
  = (Ok ((fst totals + batch_loss crit w b)%R, (snd totals + batch_acc w b)%R), w).
Proof.
  intros Ht. unfold evaluate_batch.
  cbv [bind]. rewrite forward_run, (after_forward_eval w Ht).
  cbv [history bind get ret lift]. cbn [value leaves].
  now rewrite binary_accuracy_batch.
Qed.

Lemma evaluate_loop (crit : list R -> list R -> R) (it : list Batch) (w : World) :
  training (model w) = false ->
  forall totals : R * R,
    for_each it totals (evaluate_batch crit) w
    = (Ok ((fst totals + sum (map (batch_loss crit w) it))%R,
           (snd totals + sum (map (batch_acc w) it))%R), w).
Proof.
  intros Ht. induction it as [| b it IH]; intros totals.
  - destruct totals as [l a]. cbn [for_each map sum fst snd]. unfold ret.
    do 3 f_equal; lra.
  - cbn [for_each map sum]. unfold bind.
    rewrite evaluate_batch_run by assumption. rewrite IH.
    cbn [fst snd]. do 3 f_equal; lra.
Qed.

Lemma evaluate_run (it : list Batch) (crit : list R -> list R -> R) (w : World) :
  evaluate it crit w
  = (match py_div (0 + sum (map (batch_loss crit (eval_world w)) it)) (len it) with
     | Ok l =>
         match py_div (0 + sum (map (batch_acc (eval_world w)) it)) (len it) with
         | Ok a => Ok (l, a)
         | Raise e => Raise e
         end
     | Raise e => Raise e
     end,
     with_grad_enabled (grad_enabled w) (eval_world w)).
Proof.
  unfold evaluate, model_eval. cbv [bind modify with_no_grad].
  cbn [grad_enabled with_model].
  change (with_grad_enabled false (with_model (set_training false (model w)) w))
    with (eval_world w).
  rewrite (evaluate_loop crit it (eval_world w) eq_refl (0%R, 0%R)).
  cbn [fst snd]. unfold lift, ret.
  destruct (py_div _ (len it)); [destruct (py_div _ (len it)) |]; reflexivity.
Qed.

Lemma evaluate_returns (it : list Batch) (crit : list R -> list R -> R) (w : World) :
  it <> [] ->
  fst (evaluate it crit w)
  = Ok (mean (map (batch_loss crit (eval_world w)) it),
        mean (map (batch_acc (eval_world w)) it)).
Proof.
  intros Hit. rewrite evaluate_run. cbn [fst]. rewrite !py_div_len by assumption.
  unfold mean. rewrite !length_map. do 2 f_equal; f_equal; lra.
Qed.

(** A training loop returns or is refused by [backward]; it raises nothing
    else. *)
Lemma train_loop_outcome (crit : list R -> list R -> R) (it : list Batch) :
  forall (totals : R * R) (w : World),
    (exists t, fst (for_each it totals (train_batch crit) w) = Ok t)
    \/ fst (for_each it totals (train_batch crit) w) = Raise RuntimeError.
Proof.
  induction it as [| b it IH]; intros totals w.
  - left. now exists totals.
  - cbn [for_each]. unfold bind.
    destruct (list_eq_dec string_dec (loss_history w) []) as [Hh | Hh].
    + right. pose proof (train_batch_refused crit totals b w Hh) as Hr.
      destruct (train_batch crit totals b w) as [r w']. cbn [fst] in Hr. now subst r.
    + pose proof (train_batch_returns crit totals b w Hh) as Hr.
      destruct (train_batch crit totals b w) as [r w']. cbn [fst] in Hr. subst r.
      apply IH.
Qed.

(** C6. For a non-empty iterator [evaluate] returns the plain mean over the
    batches of the batch losses and the plain mean of the batch accuracies,
    every batch counting once whatever its size; so does [train], over the
    losses and accuracies of its successive steps, when autograd is on and
    the head has a tracked parameter (otherwise [backward] refuses the
    loss). *)
Theorem train_and_evaluate_return_batch_means
        (it : list Batch) (crit : list R -> list R -> R) (w : World) :
  it <> [] ->
  fst (evaluate it crit w)
  = Ok (mean (map (batch_loss crit (eval_world w)) it),
        mean (map (batch_acc (eval_world w)) it))
  /\ (loss_history w <> [] ->
      length (train_trace crit it (snd (model_train w))) = length it
      /\ fst (train it crit w)
         = Ok (mean (map fst (train_trace crit it (snd (model_train w)))),
               mean (map snd (train_trace crit it (snd (model_train w)))))).
Proof.
  intros Hit. split; [now apply evaluate_returns |].
  intros Hh. split; [apply length_train_trace |].
  unfold train, model_train. cbv [bind modify]. cbn [snd].
  set (w0 := with_model (set_training true (model w)) w).
  assert (Hh0 : loss_history w0 <> [])
    by (rewrite (loss_history_frame w w0); [assumption | repeat split | reflexivity]).
  pose proof (train_loop crit it (0%R, 0%R) w0 Hh0) as Hl.
  destruct (for_each it (0%R, 0%R) (train_batch crit) w0) as [r w1].
  cbn [fst snd] in Hl. subst r. cbn [fst snd]. unfold lift, ret.
  rewrite !py_div_len by assumption. cbn [fst].
  unfold mean. rewrite !length_map, length_train_trace.
  do 2 f_equal; f_equal; lra.
Qed.

(** C9. With no batch both loops reach the final division with totals 0 and
    length 0: [train] and [evaluate] raise [ZeroDivisionError] exactly when
    the iterator is empty, and [evaluate] returns for every other iterator. *)
Theorem empty_iterator_divides_by_zero
        (it : list Batch) (crit : list R -> list R -> R) (w : World) :
  fst (train [] crit w) = Raise ZeroDivisionError
  /\ fst (evaluate [] crit w) = Raise ZeroDivisionError
  /\ fst (for_each [] (0%R, 0%R) (train_batch crit) (snd (model_train w)))
     = Ok (0%R, 0%R)
  /\ py_div 0 (len (@nil Batch)) = Raise ZeroDivisionError
  /\ (fst (train it crit w) = Raise ZeroDivisionError <-> it = [])
  /\ (fst (evaluate it crit w) = Raise ZeroDivisionError <-> it = [])
  /\ ((exists r, fst (evaluate it crit w) = Ok r) <-> it <> []).
Proof.
  assert (He : fst (evaluate [] crit w) = Raise ZeroDivisionError)
    by (rewrite evaluate_run; reflexivity).
  assert (Ht : fst (train [] crit w) = Raise ZeroDivisionError) by reflexivity.
  assert (Hev : it <> [] -> exists r, fst (evaluate it crit w) = Ok r).
  { intros Hit. eexists. now apply evaluate_returns. }
  split; [exact Ht |]. split; [exact He |].
  split; [reflexivity |]. split; [reflexivity |].
  split; [| split].
  - split; [| now intros ->].
    intros H. destruct it as [| b it]; [reflexivity | exfalso].
    revert H. unfold train, model_train. cbv [bind modify].
    destruct (train_loop_outcome crit (b :: it) (0%R, 0%R)
                (with_model (set_training true (model w)) w)) as [[t Hl] | Hl];
      destruct (for_each _ _ _ _) as [r w1]; cbn [fst] in Hl; subst r.
    + unfold lift. rewrite !py_div_len by discriminate. discriminate.
    + discriminate.
  - split; [| now intros ->].
    intros H. destruct it as [| b it]; [reflexivity | exfalso].
    destruct Hev as [r Hr]; [discriminate | congruence].
  - split; [| exact Hev].
    intros [r Hr] ->. congruence.
Qed.

End LoopFacts.

(** ** Evaluation and inference as readers of the parameters *)

Section ReaderFacts.
Context {tk : Tokenizer} {th : Torch}.

(** C5. [evaluate] leaves every parameter as it found it, frozen or not:
    values, gradients and tracking flags of the three sub-modules are the
    same after the call, for every iterator and every state.  No optimizer
    step is taken (Adam's state is the same), the generator is not moved,
    the autograd switch is back where it was, and every forward pass of the
    loop runs without history, so no gradient can be computed from it.  The
    one change is the training flag, which is off afterwards. *)
Theorem evaluate_preserves_parameters
        (it : list Batch) (crit : list R -> list R -> R) (w : World) :
  bert (model (snd (evaluate it crit w))) = bert (model w)
  /\ rnn (model (snd (evaluate it crit w))) = rnn (model w)
  /\ out (model (snd (evaluate it crit w))) = out (model w)
  /\ named_parameters (model (snd (evaluate it crit w))) = named_parameters (model w)
  /\ state_dict (model (snd (evaluate it crit w))) = state_dict (model w)
  /\ optimizer (snd (evaluate it crit w)) = optimizer w
  /\ generator (snd (evaluate it crit w)) = generator w
  /\ grad_enabled (snd (evaluate it crit w)) = grad_enabled w
  /\ training (model (snd (evaluate it crit w))) = false
  /\ (forall text : list (list Z),
        forward text (eval_world w)
        = (Ok (mkTracked (logits (eval_world w) text) []), eval_world w)).
Proof.
  rewrite evaluate_run. cbn [snd].
  repeat split.
  intros text. rewrite forward_run, after_forward_eval by reflexivity.
  reflexivity.
Qed.

Lemma singleton_logits (w : World) (row : list Z) :
  exists l : R, logits w [row] = [l].
Proof.
  pose proof (length_logits [row] w) as H.
  destruct (logits w [row]) as [| l [| l' ls]]; try discriminate.
  now exists l.
Qed.

(** [predict_sentiment] never raises: it returns the sigmoid of the single
    logit of its one-row batch, and leaves the state of an evaluation-mode
    forward pass. *)
Lemma predict_sentiment_run (sentence : string) (w : World) :
  exists l : R,
    logits (snd (model_eval w)) [predict_indexed sentence] = [l]
    /\ predict_prediction sentence w
       = (Ok (mkTracked [sigmoid l] (loss_history w)), snd (model_eval w))
    /\ predict_sentiment sentence w = (Ok (sigmoid l), snd (model_eval w)).
Proof.
  destruct (singleton_logits (snd (model_eval w)) (predict_indexed sentence)) as [l Hl].
  exists l. split; [exact Hl |].
  assert (Hp : predict_prediction sentence w
               = (Ok (mkTracked [sigmoid l] (loss_history w)), snd (model_eval w))).
  { unfold predict_prediction, model_eval. cbv [bind modify].
    rewrite forward_run, after_forward_eval by reflexivity.
    cbv [pointwise history bind get ret]. cbn [value leaves snd].
    unfold model_eval, modify in Hl. cbn [snd] in Hl. rewrite Hl.
    unfold loss_history. cbn [grad_enabled with_model model].
    rewrite (head_tracked_same_flags (model w) (set_training false (model w)))
      by apply same_flags_set_training.
    destruct (grad_enabled w); reflexivity. }
  split; [exact Hp |].
  unfold predict_sentiment. cbv [bind]. rewrite Hp. reflexivity.
Qed.

(** C8. If the tokenizer gives no token for the empty string, then for the
    empty string [predict_sentiment] builds exactly the begin id followed by
    the end id, two ids in all, does not raise, and returns a number between
    0 and 1. *)
Theorem predict_sentiment_empty_string (w : World) :
  tokenize EmptyString = [] ->
  predict_indexed EmptyString = [init_token_idx; eos_token_idx]
  /\ len (predict_indexed EmptyString) = 2
  /\ exists p : R,
       fst (predict_sentiment EmptyString w) = Ok p /\ (0 <= p <= 1)%R.
Proof.
  intros Htok.
  assert (Hidx : predict_indexed EmptyString = [init_token_idx; eos_token_idx]).
  { unfold predict_indexed, predict_tokens. rewrite Htok. reflexivity. }
  split; [exact Hidx |]. split; [now rewrite Hidx |].
  destruct (predict_sentiment_run EmptyString w) as (l & _ & _ & Hp).
  exists (sigmoid l). rewrite Hp. split; [reflexivity |].
  pose proof (sigmoid_range l). lra.
Qed.

(** C10. Whatever the training flag was, after [predict_sentiment] it is off:
    the call replaces the model by the same model in evaluation mode and
    touches nothing else, so every parameter keeps its value, gradient and
    tracking flag.  In particular a model put in training mode comes back in
    evaluation mode, and this is the state in which a later call starts; a
    later [train] finds the flag off and turns it on again. *)
Theorem predict_sentiment_leaves_eval_mode
        (sentence : string) (it : list Batch) (crit : list R -> list R -> R)
        (w : World) :
  training (model (snd (predict_sentiment sentence w))) = false
  /\ model (snd (predict_sentiment sentence w)) = set_training false (model w)
  /\ named_parameters (model (snd (predict_sentiment sentence w)))
     = named_parameters (model w)
  /\ state_dict (model (snd (predict_sentiment sentence w))) = state_dict (model w)
  /\ optimizer (snd (predict_sentiment sentence w)) = optimizer w
  /\ training (model (snd (model_train w))) = true
  /\ training (model (snd (predict_sentiment sentence (snd (model_train w))))) = false
  /\ training (model (snd (train it crit (snd (predict_sentiment sentence w))))) = true.
Proof.
  destruct (predict_sentiment_run sentence w) as (l & _ & _ & Hp).
  destruct (predict_sentiment_run sentence (snd (model_train w))) as (l' & _ & _ & Hp').
  rewrite Hp, Hp'. cbn [snd]. repeat split.
  pose proof (train_frame it crit (snd (model_eval w))) as (_ & _ & _ & Ht & _).
  exact Ht.
Qed.

End ReaderFacts.

(** C8 under the character tokenizer, which gives no token for the empty
    string. *)
Lemma predict_sentiment_empty_string_witness :
  tokenize (Tokenizer := Toy.tokenizer) EmptyString = []
  /\ predict_indexed (tk := Toy.tokenizer) EmptyString = [101; 102]
  /\ exists p : R,
       fst (predict_sentiment (tk := Toy.tokenizer) EmptyString Toy.world0) = Ok p
       /\ (0 <= p <= 1)%R.
Proof.
  split; [reflexivity |].
  pose proof (predict_sentiment_empty_string
                (tk := Toy.tokenizer) (th := Toy.torch) Toy.world0 eq_refl)
    as (Hidx & _ & Hp).
  split; [exact Hidx | exact Hp].
Defined.

(** C6 on one batch of one example, from the prepared model. *)
Lemma train_and_evaluate_return_batch_means_witness :
  [Toy.batch1] <> []
  /\ loss_history (th := Toy.torch) Toy.world0 <> []
  /\ fst (evaluate (tk := Toy.tokenizer) [Toy.batch1] Toy.criterion Toy.world0)
     = Ok (mean (map (batch_loss (tk := Toy.tokenizer) Toy.criterion
                                 (eval_world Toy.world0)) [Toy.batch1]),
           mean (map (batch_acc (tk := Toy.tokenizer) (eval_world Toy.world0))
                     [Toy.batch1]))
  /\ fst (train (tk := Toy.tokenizer) [Toy.batch1] Toy.criterion Toy.world0)
     = Ok (mean (map fst (train_trace (tk := Toy.tokenizer) Toy.criterion [Toy.batch1]
                                      (snd (model_train Toy.world0)))),
           mean (map snd (train_trace (tk := Toy.tokenizer) Toy.criterion [Toy.batch1]
                                      (snd (model_train Toy.world0))))).
Proof.
  assert (H1 : [Toy.batch1] <> []) by discriminate.
  assert (H2 : loss_history (th := Toy.torch) Toy.world0 <> [])
    by (vm_compute; discriminate).
  pose proof (train_and_evaluate_return_batch_means
                (tk := Toy.tokenizer) (th := Toy.torch)
                [Toy.batch1] Toy.criterion Toy.world0 H1) as (He & Ht).
  split; [exact H1 |]. split; [exact H2 |]. split; [exact He |].
  exact (proj2 (Ht H2)).
Defined.

(** ** Gradient tracking during inference *)

(** C4 (defect). On line 433 the script calls [predict_sentiment] with
    autograd on and a trainable head.  The call does switch to evaluation
    mode and returns the sigmoid of the logit, but only the encoder runs under
    [no_grad]: the tensor [prediction] carries history down to the eighteen
    parameters of the GRU and the linear layer, whereas the same forward
    pass inside [evaluate] carries none. *)
Theorem predict_sentiment_tracks_head_gradients :
  exists (t : Tracked (list R)) (l : R),
    fst (predict_prediction (tk := Toy.tokenizer) review_433 Toy.world0) = Ok t
    /\ training (model (snd (predict_prediction (tk := Toy.tokenizer)
                                                review_433 Toy.world0))) = false
    /\ value t = [sigmoid l]
    /\ fst (predict_sentiment (tk := Toy.tokenizer) review_433 Toy.world0)
       = Ok (sigmoid l)
    /\ tracks_grad t = true
    /\ leaves t
       = ["out.weight"; "out.bias";
          "rnn.weight_ih_l0"; "rnn.weight_hh_l0"; "rnn.bias_ih_l0"; "rnn.bias_hh_l0";
          "rnn.weight_ih_l0_reverse"; "rnn.weight_hh_l0_reverse";
          "rnn.bias_ih_l0_reverse"; "rnn.bias_hh_l0_reverse";
          "rnn.weight_ih_l1"; "rnn.weight_hh_l1"; "rnn.bias_ih_l1"; "rnn.bias_hh_l1";
          "rnn.weight_ih_l1_reverse"; "rnn.weight_hh_l1_reverse";
          "rnn.bias_ih_l1_reverse"; "rnn.bias_hh_l1_reverse"]%string
    /\ (forall text : list (list Z),
          exists t' : Tracked (list R),
            fst (forward text (eval_world Toy.world0)) = Ok t'
            /\ tracks_grad t' = false).
Proof.
  destruct (predict_sentiment_run (tk := Toy.tokenizer) (th := Toy.torch)
              review_433 Toy.world0) as (l & _ & Hp & Hs).
  exists (mkTracked [sigmoid l] (loss_history Toy.world0)), l.
  rewrite Hp, Hs. cbn [fst snd value leaves].
  repeat split.
  intros text. rewrite forward_run. eexists. split; reflexivity.
Qed.

(** ** Freezing the encoder *)

Section FreezeFacts.
Context {tk : Tokenizer} {th : Torch}.

Lemma encoder_frozen_same_flags (m m' : BERTGRUSentiment) :
  same_flags m m' -> encoder_frozen m -> encoder_frozen m'.
Proof.
  intros (Hb & Hr & Ho). unfold encoder_frozen.
  assert (Hn : forall x : BERTGRUSentiment,
             map (fun np => (fst np, requires_grad (snd np))) (named_parameters x)
             = map (fun nb => (qualify "bert" (fst nb), snd nb)) (flags (bert x))
               ++ map (fun nb => (qualify "rnn" (fst nb), snd nb)) (flags (rnn x))
               ++ map (fun nb => (qualify "out" (fst nb), snd nb)) (flags (out x))).
  { intros x. unfold named_parameters, qualified, flags.
    rewrite !map_app, !map_map. reflexivity. }
  assert (He : forall x : BERTGRUSentiment,
             Forall (fun np => requires_grad (snd np) = negb (prefix "bert" (fst np)))
                    (named_parameters x)
             <-> Forall (fun nb : string * bool => snd nb = negb (prefix "bert" (fst nb)))
                        (map (fun np => (fst np, requires_grad (snd np)))
                             (named_parameters x))).
  { intros x. rewrite Forall_map. reflexivity. }
  rewrite (He m), (He m'), (Hn m), (Hn m'), Hb, Hr, Ho. exact (fun H => H).
Qed.

Lemma encoder_frozen_prepare (weights : list (string * tensor)) (init : string -> tensor) :
  encoder_frozen (prepare weights init).
Proof.
  unfold encoder_frozen, prepare, construct, new_model, freeze_bert, freeze_by_name,
    update_named, named_parameters, qualified, from_pretrained.
  cbn [bert rnn out].
  rewrite !Forall_app. repeat split; apply Forall_forall; intros np Hin;
    repeat (apply in_map_iff in Hin; destruct Hin as (? & <- & Hin));
    reflexivity.
Qed.

Lemma values_prepare (weights : list (string * tensor)) (init : string -> tensor) :
  values (bert (prepare weights init)) = weights.
Proof.
  unfold prepare, construct, new_model, freeze_bert, freeze_by_name, update_named,
    from_pretrained, values.
  cbn [bert]. rewrite !map_map. rewrite <- (map_id weights) at 2.
  apply map_ext. now intros [n v].
Qed.

Lemma evaluate_frame (it : list Batch) (crit : list R -> list R -> R) (w : World) :
  same_flags (model w) (model (snd (evaluate it crit w)))
  /\ values (bert (model (snd (evaluate it crit w)))) = values (bert (model w)).
Proof. rewrite evaluate_run. cbn [snd]. repeat split. Qed.

Lemma epoch_body_frame (tr va : list Batch) (crit : list R -> list R -> R)
      (e : nat) (s : Script) :
  same_flags (model (world s)) (model (world (snd (epoch_body tr va crit e s))))
  /\ values (bert (model (world (snd (epoch_body tr va crit e s)))))
     = values (bert (model (world s))).
Proof.
  unfold epoch_body.
  pose proof (train_frame tr crit (world s)) as (Hf & Hv & _).
  destruct (train tr crit (world s)) as [[[tl ta] | x] w1]; cbn [snd] in Hf, Hv.
  - pose proof (evaluate_frame va crit w1) as (Hf' & Hv').
    destruct (evaluate va crit w1) as [[[vl va'] | x] w2]; cbn [snd] in Hf', Hv'.
    + destruct (lt_float vl (best_valid_loss (with_world w2 s)));
        cbn [snd world print torch_save assign_best with_world];
        (split; [eapply same_flags_trans; eassumption | congruence]).
    + cbn [snd world with_world].
      split; [eapply same_flags_trans; eassumption | congruence].
  - cbn [snd world with_world]. split; assumption.
Qed.

Lemma epoch_loop_frame (tr va : list Batch) (crit : list R -> list R -> R)
      (epochs : list nat) :
  forall s : Script,
    same_flags (model (world s)) (model (world (snd (epoch_loop tr va crit epochs s))))
    /\ values (bert (model (world (snd (epoch_loop tr va crit epochs s)))))
       = values (bert (model (world s))).
Proof.
  induction epochs as [| e epochs IH]; intros s.
  - cbn. repeat split.
  - cbn [epoch_loop].
    pose proof (epoch_body_frame tr va crit e s) as (Hf & Hv).
    destruct (epoch_body tr va crit e s) as [[u | x] s1]; cbn [snd] in Hf, Hv.
    + destruct (IH s1) as (Hf' & Hv').
      split; [eapply same_flags_trans; eassumption | congruence].
    + split; assumption.
Qed.

(** C3, as the script has it.  The flags are set by the two loops that
    follow the construction: after them every parameter whose name starts
    with [bert] is untracked and every other parameter is tracked, and this
    is still so after any number of epochs over any iterators, whether they
    complete or not.  The encoder's values are then the pretrained weights:
    no training step changes them, in any state. *)
Theorem encoder_frozen_after_freezing_and_training
        (weights : list (string * tensor)) (init : string -> tensor)
        (adam0 : opt_state) (tr va : list Batch) (crit : list R -> list R -> R)
        (n : nat) :
  encoder_frozen (prepare weights init)
  /\ values (bert (prepare weights init)) = weights
  /\ encoder_frozen
       (model (world (snd (run tr va crit n (initial_world weights init adam0)))))
  /\ values (bert (model (world (snd (run tr va crit n
                                          (initial_world weights init adam0))))))
     = weights
  /\ (forall (totals : R * R) (b : Batch) (w : World),
        values (bert (model (snd (train_batch crit totals b w))))
        = values (bert (model w))).
Proof.
  pose proof (epoch_loop_frame tr va crit (seq 0 n)
                (initial_script (initial_world weights init adam0))) as (Hf & Hv).
  split; [apply encoder_frozen_prepare |].
  split; [apply values_prepare |].
  split; [| split].
  - unfold run. eapply encoder_frozen_same_flags; [exact Hf |].
    apply encoder_frozen_prepare.
  - unfold run. rewrite Hv. apply values_prepare.
  - intros totals b w. apply (train_batch_frame crit totals b w).
Qed.

End FreezeFacts.

(** C3 as stated fails right after the constructor (line 217): the
    pretrained encoder enters the model with every parameter tracked, which
    is what line 225 counts. *)
Lemma encoder_tracked_after_construction :
  exists (name : string) (p : Param (th := Toy.torch)),
    In (name, p) (named_parameters (construct (th := Toy.torch) Toy.weights Toy.init))
    /\ prefix "bert" name = true
    /\ requires_grad p = true.
Proof.
  exists "bert.embeddings.word_embeddings.weight"%string, (mkParam (th := Toy.torch) 7 true None).
  split; [left; reflexivity | split; reflexivity].
Qed.

(** ** Checkpoint selection *)

Lemma lt_float_trans (x v : R) (b : pyfloat) :
  (x < v)%R -> lt_float v b = true -> lt_float x b = true.
Proof.
  destruct b as [| r]; [reflexivity |]. cbn.
  destruct (Rlt_dec v r) as [Hv | Hv]; [| discriminate].
  intros Hx _. destruct (Rlt_dec x r) as [H | H]; [reflexivity | lra].
Qed.

Lemma lt_float_finite (x v : R) : lt_float x (Finite v) = true <-> (x < v)%R.
Proof.
  cbn. destruct (Rlt_dec x v) as [H | H]; split; intros; try assumption;
    try reflexivity; [discriminate | contradiction].
Qed.

Lemma improvements_from_snoc (vs : list R) (v : R) :
  forall (i : nat) (b : pyfloat),
    improvements_from i b (vs ++ [v])
    = improvements_from i b vs
        ++ (if lt_float v (fold_left improve vs b)
            then [((i + length vs)%nat, v)] else []).
Proof.
  induction vs as [| x vs IH]; intros i b.
  - cbn. rewrite Nat.add_0_r. unfold improve. now destruct (lt_float v b).
  - cbn [app improvements_from fold_left length]. unfold improve at 2.
    destruct (lt_float x b); rewrite IH, Nat.add_succ_comm; reflexivity.
Qed.

Lemma running_best_snoc (vs : list R) (v : R) :
  running_best (vs ++ [v]) = improve (running_best vs) v.
Proof. unfold running_best. now rewrite fold_left_app. Qed.

(** The losses of the improvements from [b] on strictly decrease and are all
    below [b]. *)
Lemma improvements_from_decreasing (vs : list R) :
  forall (i : nat) (b : pyfloat),
    StronglySorted Rgt (map snd (improvements_from i b vs))
    /\ Forall (fun x => lt_float x b = true) (map snd (improvements_from i b vs)).
Proof.
  induction vs as [| v vs IH]; intros i b.
  - cbn. split; constructor.
  - cbn [improvements_from]. destruct (lt_float v b) eqn:E.
    + destruct (IH (S i) (Finite v)) as (Hs & Hb). cbn [map snd]. split.
      * constructor; [exact Hs |].
        eapply Forall_impl; [| exact Hb]. intros x Hx.
        apply lt_float_finite in Hx. exact Hx.
      * constructor; [exact E |].
        eapply Forall_impl; [| exact Hb]. intros x Hx.
        apply lt_float_finite in Hx. now apply (lt_float_trans x v b).
    + apply IH.
Qed.

(** Their epochs strictly increase from [i] on. *)
Lemma improvements_from_epochs (vs : list R) :
  forall (i : nat) (b : pyfloat),
    StronglySorted lt (map fst (improvements_from i b vs))
    /\ Forall (fun j => (i <= j < i + length vs)%nat)
              (map fst (improvements_from i b vs)).
Proof.
  induction vs as [| v vs IH]; intros i b.
  - cbn. split; constructor.
  - cbn [improvements_from length].
    destruct (lt_float v b); destruct (IH (S i) (if lt_float v b then Finite v else b))
      as (Hs & Hb).
    + destruct (IH (S i) (Finite v)) as (Hs' & Hb'). cbn [map fst]. split.
      * constructor; [exact Hs' |].
        eapply Forall_impl; [| exact Hb']. intros j Hj. cbn beta in Hj. lia.
      * constructor; [lia |].
        eapply Forall_impl; [| exact Hb']. intros j Hj. cbn beta in Hj. lia.
    + destruct (IH (S i) b) as (Hs' & Hb'). split; [exact Hs' |].
      eapply Forall_impl; [| exact Hb']. intros j Hj. cbn beta in Hj. lia.
Qed.

(** Epoch [i + k] is among the improvements from [b] exactly when the loss
    at position [k] is strictly below the best of [b] and the losses before
    it. *)
Lemma improvements_from_spec (vs : list R) :
  forall (i : nat) (b : pyfloat) (k : nat) (x : R),
    In ((i + k)%nat, x) (improvements_from i b vs)
    <-> nth_error vs k = Some x
        /\ lt_float x (fold_left improve (firstn k vs) b) = true.
Proof.
  induction vs as [| v vs IH]; intros i b k x.
  - cbn. destruct k; cbn; split; [intros [] | intros [H _]; discriminate
                                  | intros [] | intros [H _]; discriminate].
  - pose proof (improvements_from_epochs vs (S i)) as He.
    destruct k as [| k].
    + rewrite Nat.add_0_r. cbn [nth_error firstn fold_left improvements_from].
      destruct (lt_float v b) eqn:E.
      * split.
        -- intros [H | H]; [inversion H; subst; split; [reflexivity | exact E] |].
           exfalso. destruct (He (Finite v)) as (_ & Hb).
           rewrite Forall_forall in Hb.
           specialize (Hb i (in_map fst _ _ H)). cbn in Hb. lia.
        -- intros [H Hx]. inversion H; subst. now left.
      * split.
        -- intros H. exfalso. destruct (He b) as (_ & Hb).
           rewrite Forall_forall in Hb.
           specialize (Hb i (in_map fst _ _ H)). cbn in Hb. lia.
        -- intros [H Hx]. inversion H; subst. congruence.
    + rewrite <- Nat.add_succ_comm.
      cbn [nth_error firstn fold_left improvements_from]. unfold improve at 2.
      destruct (lt_float v b) eqn:E.
      * rewrite <- IH. split; [intros [H | H]; [inversion H; lia | exact H] |].
        intros H. now right.
      * apply IH.
Qed.

Lemma improvements_epoch (vs : list R) (k : nat) :
  (k < length vs)%nat ->
  In k (map fst (improvements vs))
  <-> lt_float (nth k vs 0%R) (running_best (firstn k vs)) = true.
Proof.
  intros Hk. unfold improvements, running_best.
  pose proof (improvements_from_spec vs 0 Inf k) as Hs. cbn [Nat.add] in Hs.
  assert (Hn : nth_error vs k = Some (nth k vs 0%R))
    by (apply nth_error_nth'; exact Hk).
  split.
  - intros H. apply in_map_iff in H. destruct H as ([j x] & Hj & Hin).
    cbn in Hj. subst j. apply Hs in Hin. destruct Hin as (Hx & Hlt).
    rewrite Hn in Hx. inversion Hx. now subst x.
  - intros H. apply in_map_iff. exists (k, nth k vs 0%R).
    split; [reflexivity |]. apply Hs. now split.
Qed.

Lemma improvements_losses (vs : list R) :
  Forall (fun c => nth_error vs (fst c) = Some (snd c)) (improvements vs).
Proof.
  apply Forall_forall. intros [k x] Hin.
  pose proof (improvements_from_spec vs 0 Inf k x) as Hs. cbn [Nat.add] in Hs.
  now apply Hs in Hin.
Qed.

Lemma increasing_NoDup (l : list nat) : StronglySorted lt l -> NoDup l.
Proof.
  induction 1 as [| a l _ IH Ha]; constructor; [| exact IH].
  intros Hin. rewrite Forall_forall in Ha. specialize (Ha a Hin). lia.
Qed.

Section CheckpointFacts.
Context {tk : Tokenizer} {th : Torch}.

(** One epoch: when the body completes it has printed one report, and it has
    written the file, once, exactly if the validation loss was strictly
    below [best_valid_loss]; when it raises, nothing was written. *)
Lemma epoch_body_run (tr va : list Batch) (crit : list R -> list R -> R)
      (e : nat) (s : Script) :
  match fst (epoch_body tr va crit e s) with
  | Ok _ =>
      exists r : Report,
        stdout (snd (epoch_body tr va crit e s)) = stdout s ++ [r]
        /\ report_epoch r = e
        /\ if lt_float (valid_loss r) (best_valid_loss s)
           then model_pt (snd (epoch_body tr va crit e s))
                = model_pt s
                    ++ [mkSave e (valid_loss r)
                               (state_dict (model (world (snd (epoch_body tr va crit e s)))))]
                /\ best_valid_loss (snd (epoch_body tr va crit e s))
                   = Finite (valid_loss r)
           else model_pt (snd (epoch_body tr va crit e s)) = model_pt s
                /\ best_valid_loss (snd (epoch_body tr va crit e s))
                   = best_valid_loss s
  | Raise _ =>
      stdout (snd (epoch_body tr va crit e s)) = stdout s
      /\ model_pt (snd (epoch_body tr va crit e s)) = model_pt s
      /\ best_valid_loss (snd (epoch_body tr va crit e s)) = best_valid_loss s
  end.
Proof.
  unfold epoch_body.
  destruct (train tr crit (world s)) as [[[tl ta] | x] w1]; [| repeat split].
  destruct (evaluate va crit w1) as [[[vl va'] | x] w2]; [| repeat split].
  cbn [fst snd]. exists (mkReport e tl ta vl va').
  cbn [best_valid_loss with_world valid_loss report_epoch].
  destruct (lt_float vl (best_valid_loss s)); repeat split.
Qed.

Lemma epoch_body_invariant (tr va : list Batch) (crit : list R -> list R -> R)
      (s : Script) :
  checkpoint_invariant s ->
  checkpoint_invariant (snd (epoch_body tr va crit (length (stdout s)) s)).
Proof.
  intros (He & Hb & Hc).
  pose proof (epoch_body_run tr va crit (length (stdout s)) s) as H.
  destruct (epoch_body tr va crit (length (stdout s)) s) as [[u | x] s1];
    cbn [fst snd] in *.
  - destruct H as (r & Hout & Hr & Hsave).
    unfold checkpoint_invariant, valid_losses, checkpoints in *.
    rewrite Hout, !map_app, length_app, seq_app, He. cbn [map length seq Nat.add].
    rewrite Hr. split; [reflexivity |].
    rewrite running_best_snoc. unfold improvements in *.
    rewrite improvements_from_snoc. fold (running_best (map valid_loss (stdout s))).
    rewrite <- Hb, length_map. unfold improve. cbn [Nat.add].
    destruct (lt_float (valid_loss r) (best_valid_loss s));
      destruct Hsave as (-> & ->); rewrite ?map_app, Hc; cbn [map save_epoch save_loss];
      rewrite ?app_nil_r; split; reflexivity.
  - destruct H as (Hout & Hpt & Hbest).
    unfold checkpoint_invariant, valid_losses, checkpoints in *.
    rewrite Hout, Hpt, Hbest. repeat split; assumption.
Qed.

Lemma epoch_loop_invariant (tr va : list Batch) (crit : list R -> list R -> R)
      (n : nat) :
  forall s : Script,
    checkpoint_invariant s ->
    checkpoint_invariant
      (snd (epoch_loop tr va crit (seq (length (stdout s)) n) s)).
Proof.
  induction n as [| n IH]; intros s Hs; [exact Hs |].
  cbn [seq epoch_loop].
  pose proof (epoch_body_invariant tr va crit s Hs) as H1.
  pose proof (epoch_body_run tr va crit (length (stdout s)) s) as H2.
  destruct (epoch_body tr va crit (length (stdout s)) s) as [[u | x] s1];
    cbn [fst snd] in *; [| exact H1].
  destruct H2 as (r & Hout & _).
  replace (S (length (stdout s))) with (length (stdout s1))
    by (rewrite Hout, length_app; cbn; lia).
  now apply IH.
Qed.

(** C2. In an epoch that completes, [model.pt] is written, once, exactly
    when the validation loss of the epoch is strictly below
    [best_valid_loss], which then takes that loss; in an epoch that raises
    nothing is written.  Over a run from [float('inf')]: [best_valid_loss]
    is the best validation loss printed so far, the epochs with a write are
    those whose validation loss is strictly below the best of the earlier
    ones, the losses of successive writes strictly decrease, and no epoch has
    two writes. *)
Theorem checkpoint_written_iff_strict_improvement
        (tr va : list Batch) (crit : list R -> list R -> R) (n : nat) (w : World) :
  (forall (e : nat) (s0 : Script),
      match fst (epoch_body tr va crit e s0) with
      | Ok _ =>
          exists r : Report,
            stdout (snd (epoch_body tr va crit e s0)) = stdout s0 ++ [r]
            /\ report_epoch r = e
            /\ if lt_float (valid_loss r) (best_valid_loss s0)
               then model_pt (snd (epoch_body tr va crit e s0))
                    = model_pt s0
                        ++ [mkSave e (valid_loss r)
                              (state_dict
                                 (model (world (snd (epoch_body tr va crit e s0)))))]
                    /\ best_valid_loss (snd (epoch_body tr va crit e s0))
                       = Finite (valid_loss r)
               else model_pt (snd (epoch_body tr va crit e s0)) = model_pt s0
                    /\ best_valid_loss (snd (epoch_body tr va crit e s0))
                       = best_valid_loss s0
      | Raise _ =>
          stdout (snd (epoch_body tr va crit e s0)) = stdout s0
          /\ model_pt (snd (epoch_body tr va crit e s0)) = model_pt s0
          /\ best_valid_loss (snd (epoch_body tr va crit e s0)) = best_valid_loss s0
      end)
  /\ best_valid_loss (initial_script w) = Inf
  /\ best_valid_loss (snd (run tr va crit n w))
     = running_best (valid_losses (snd (run tr va crit n w)))
  /\ Forall (fun i =>
               In i (map fst (checkpoints (snd (run tr va crit n w))))
               <-> lt_float (nth i (valid_losses (snd (run tr va crit n w))) 0%R)
                            (running_best
                               (firstn i (valid_losses (snd (run tr va crit n w)))))
                   = true)
            (seq 0 (length (valid_losses (snd (run tr va crit n w)))))
  /\ Forall (fun c => nth_error (valid_losses (snd (run tr va crit n w))) (fst c)
                      = Some (snd c))
            (checkpoints (snd (run tr va crit n w)))
  /\ StronglySorted Rgt (map snd (checkpoints (snd (run tr va crit n w))))
  /\ StronglySorted lt (map fst (checkpoints (snd (run tr va crit n w))))
  /\ NoDup (map fst (checkpoints (snd (run tr va crit n w)))).
Proof.
  split; [intros e s0; apply epoch_body_run |].
  split; [reflexivity |].
  assert (Hinv : checkpoint_invariant (snd (run tr va crit n w))).
  { unfold run.
    apply (epoch_loop_invariant tr va crit n (initial_script w)).
    repeat split. }
  destruct Hinv as (_ & Hb & Hc).
  set (s := snd (run tr va crit n w)) in *.
  rewrite Hc.
  split; [exact Hb |].
  split.
  { apply Forall_forall. intros i Hi. apply in_seq in Hi.
    apply improvements_epoch. lia. }
  split; [apply improvements_losses |].
  split; [apply (improvements_from_decreasing (valid_losses s) 0 Inf) |].
  pose proof (improvements_from_epochs (valid_losses s) 0 Inf) as (Hs & _).
  split; [exact Hs | now apply increasing_NoDup].
Qed.

End CheckpointFacts.

(** ** Further facts about inference and training *)

Section FurtherFacts.
Context {tk : Tokenizer} {th : Torch}.


(** Whatever the tracking flags are, the history of the logits never reaches
    a parameter of the encoder: its call sits inside [torch.no_grad()]. *)
Theorem forward_never_tracks_encoder (text : list (list Z)) (w : World) :
  exists t : Tracked (list R),
    fst (forward text w) = Ok t
    /\ length (value t) = length text
    /\ Forall (fun name => prefix "bert" name = false) (leaves t).
Proof.
  rewrite forward_run. eexists. split; [reflexivity |]. cbn [value leaves].
  split; [apply length_logits |].
  apply Forall_forall. intros name Hin.
  assert (Hh : In name (head_tracked (model w)))
    by (destruct (grad_enabled w); [exact Hin | destruct Hin]).
  unfold head_tracked in Hh. apply in_app_or in Hh.
  destruct Hh as [Hh | Hh]; apply tracked_names_qualified in Hh;
    destruct Hh as (n & ->); reflexivity.
Qed.

(** An epoch of training, completed or not, leaves the encoder's values and
    every tracking flag as they were, and the model in training mode. *)
Theorem train_keeps_encoder_values
        (it : list Batch) (crit : list R -> list R -> R) (w : World) :
  values (bert (model (snd (train it crit w)))) = values (bert (model w))
  /\ flags (bert (model (snd (train it crit w)))) = flags (bert (model w))
  /\ flags (rnn (model (snd (train it crit w)))) = flags (rnn (model w))
  /\ flags (out (model (snd (train it crit w)))) = flags (out (model w))
  /\ training (model (snd (train it crit w))) = true
  /\ grad_enabled (snd (train it crit w)) = grad_enabled w.
Proof.
  pose proof (train_frame it crit w) as ((Hb & Hr & Ho) & Hv & Hg & Ht & _).
  repeat split; assumption.
Qed.

End FurtherFacts.

(** ** The two freezing loops and the parameter count *)

Section FreezeLoops.
Context {th : Torch}.

Lemma map_pair_id {A B : Type} (l : list (A * B)) :
  map (fun np => (fst np, snd np)) l = l.
Proof. induction l as [| [a b] l IH]; [reflexivity | cbn; now rewrite IH]. Qed.

Lemma freeze_by_name_is_freeze_bert (m : BERTGRUSentiment) :
  freeze_by_name m = freeze_bert m.
Proof.
  destruct m as [be r o bi tr].
  unfold freeze_by_name, freeze_bert, update_named.
  cbn [bert rnn out bidirectional training]. f_equal.
  - transitivity (map (fun np : string * Param => (fst np, snd np)) r);
      [apply map_ext; intros [n p]; reflexivity | apply map_pair_id].
  - transitivity (map (fun np : string * Param => (fst np, snd np)) o);
      [apply map_ext; intros [n p]; reflexivity | apply map_pair_id].
Qed.

Lemma freeze_bert_idempotent (m : BERTGRUSentiment) :
  freeze_bert (freeze_bert m) = freeze_bert m.
Proof.
  destruct m as [be r o bi tr]. unfold freeze_bert.
  cbn [bert rnn out bidirectional training]. f_equal.
  rewrite map_map. apply map_ext. intros [n p]. reflexivity.
Qed.

(** The loop over [named_parameters] with the test on the name (lines
    234-236) and the loop over [model.bert.parameters()] (lines 239-240)
    make the same assignments on every model: each alone gives the state
    both give together, and repeating either changes nothing. *)
Theorem freezing_loops_agree (m : BERTGRUSentiment) :
  freeze_by_name m = freeze_bert m
  /\ freeze_bert (freeze_by_name m) = freeze_by_name m
  /\ freeze_by_name (freeze_bert m) = freeze_bert m
  /\ freeze_by_name (freeze_by_name m) = freeze_by_name m.
Proof.
  rewrite !freeze_by_name_is_freeze_bert, !freeze_bert_idempotent. repeat split.
Qed.

Lemma sum_Z_app (l1 l2 : list Z) :
  fold_right Z.add 0 (l1 ++ l2) = fold_right Z.add 0 l1 + fold_right Z.add 0 l2.
Proof. induction l1 as [| x l1 IH]; cbn; [reflexivity | rewrite IH; lia]. Qed.

Lemma count_by_module (numel : tensor -> Z) (m : BERTGRUSentiment) :
  count_trainable_parameters numel m
  = tracked_elements numel (bert m) + tracked_elements numel (rnn m)
    + tracked_elements numel (out m).
Proof.
  unfold count_trainable_parameters, tracked_elements, parameters, named_parameters,
    qualified.
  rewrite !map_app, !map_map. cbn [snd].
  rewrite !filter_app, !map_app, !sum_Z_app, Z.add_assoc. reflexivity.
Qed.

Lemma tracked_elements_fresh {A : Type} (numel : tensor -> Z)
      (f : A -> string * tensor) (l : list A) :
  tracked_elements numel (map (fun a => fresh (f a)) l)
  = fold_right Z.add 0 (map (fun a => numel (snd (f a))) l).
Proof.
  unfold tracked_elements. induction l as [| a l IH]; [reflexivity |].
  cbn in *. now rewrite IH.
Qed.

Lemma tracked_elements_frozen (numel : tensor -> Z) (ps : list (string * Param)) :
  tracked_elements numel (map (fun np => (fst np, set_requires_grad false (snd np))) ps)
  = 0.
Proof.
  unfold tracked_elements. induction ps as [| [n p] ps IH]; [reflexivity |].
  cbn in *. exact IH.
Qed.

(** The two counts the script prints (lines 225 and 247): before freezing
    every element of every parameter is counted; after freezing the count has
    dropped by exactly the size of the pretrained encoder, and what is left
    is the size of the new GRU and linear layers, whatever the encoder is. *)
Theorem trainable_count_drops_by_encoder_size
        (numel : tensor -> Z) (weights : list (string * tensor))
        (init : string -> tensor) :
  count_trainable_parameters numel (construct weights init)
  = fold_right Z.add 0 (map (fun nv => numel (snd nv)) weights)
    + count_trainable_parameters numel (prepare weights init)
  /\ count_trainable_parameters numel (prepare weights init)
     = fold_right Z.add 0
         (map (fun name => numel (init name))
              (map (qualify "rnn") (gru_parameter_names N_LAYERS BIDIRECTIONAL)
                 ++ map (qualify "out") ["weight"; "bias"]%string)).
Proof.
  assert (Hp : prepare weights init = freeze_bert (construct weights init))
    by (unfold prepare; now rewrite freeze_by_name_is_freeze_bert, freeze_bert_idempotent).
  rewrite Hp, !count_by_module.
  unfold freeze_bert. cbn [bert rnn out].
  rewrite tracked_elements_frozen.
  unfold construct, new_model, from_pretrained. cbn [bert rnn out].
  rewrite (tracked_elements_fresh numel (fun w => w)).
  rewrite (tracked_elements_fresh numel (fun n => (n, init (qualify "rnn" n)))).
  rewrite (tracked_elements_fresh numel (fun n => (n, init (qualify "out" n)))).
  cbn [snd]. rewrite map_app, !map_map, sum_Z_app.
  split; [lia | reflexivity].
Qed.

End FreezeLoops.

(** ** The decision rule and the range of the accuracy *)




Lemma correct_count_le (preds y : list R) :
  (correct_count preds y <= length preds)%nat.
Proof.
  unfold correct_count.
  etransitivity; [apply filter_length_le |].
  rewrite length_combine. apply Nat.le_min_l.
Qed.

(** On non-empty tensors of equal shape the accuracy is a number between 0
    and 1, equal to 1 exactly when every rounded prediction equals its label
    and to 0 exactly when none does. *)
Theorem binary_accuracy_between_0_and_1 (preds y : list R) :
  length preds = length y ->
  preds <> [] ->
  exists a : R,
    binary_accuracy preds y = Ok a
    /\ (0 <= a <= 1)%R
    /\ (a = 1%R <-> correct_count preds y = length preds)
    /\ (a = 0%R <-> correct_count preds y = 0%nat).
Proof.
  intros Hlen Hne.
  exists (INR (correct_count preds y) / INR (length preds))%R.
  split; [now apply binary_accuracy_same_shape |].
  pose proof (correct_count_le preds y) as Hle.
  assert (Hn : (0 < INR (length preds))%R).
  { apply lt_0_INR. destruct preds; [contradiction | cbn; lia]. }
  assert (Hc : (0 <= INR (correct_count preds y) <= INR (length preds))%R)
    by (split; [apply pos_INR | now apply le_INR]).
  set (c := INR (correct_count preds y)) in *.
  set (n := INR (length preds)) in *.
  assert (Hq : (c / n * n = c)%R) by (field; lra).
  split; [split; [apply Rmult_le_reg_r with n | apply Rmult_le_reg_r with n]; nra |].
  split; split; intros H.
  - apply INR_eq. fold c n. nra.
  - subst c n. rewrite H. field. lra.
  - apply INR_eq. fold c. cbn [INR]. nra.
  - subst c. rewrite H. cbn [INR]. field. lra.
Qed.

(** [binary_accuracy_between_0_and_1] on two examples. *)
Lemma binary_accuracy_between_0_and_1_witness :
  length [0%R; 0%R] = length [0%R; 1%R]
  /\ [0%R; 0%R] <> []
  /\ exists a : R,
       binary_accuracy [0%R; 0%R] [0%R; 1%R] = Ok a /\ (0 <= a <= 1)%R.
Proof.
  assert (H1 : length [0%R; 0%R] = length [0%R; 1%R]) by reflexivity.
  assert (H2 : [0%R; 0%R] <> []) by discriminate.
  destruct (binary_accuracy_between_0_and_1 [0%R; 0%R] [0%R; 1%R] H1 H2)
    as (a & Ha & Hr & _).
  split; [exact H1 |]. split; [exact H2 |]. exists a. split; assumption.
Defined.

(** ** Batches against single sentences *)

Section BatchFacts.
Context {tk : Tokenizer}.

Lemma length_le_longest (rows : list (list Z)) (x : list Z) :
  In x rows -> (length x <= fold_right Nat.max 0 (map (@length Z) rows))%nat.
Proof.
  induction rows as [| r rows IH]; intros Hin; [destruct Hin |].
  cbn. destruct Hin as [-> | Hin]; [lia | specialize (IH Hin); lia].
Qed.

Lemma longest_bound (rows : list (list Z)) (k : nat) :
  Forall (fun x => (length x <= k)%nat) rows ->
  (fold_right Nat.max 0 (map (@length Z) rows) <= k)%nat.
Proof. induction 1; cbn; lia. Qed.

Lemma len_preprocess (sentence : string) :
  len (preprocess sentence) <= max_input_length - 2.
Proof.
  unfold preprocess. rewrite len_convert_tokens_to_ids.
  unfold tokenize_and_cut. fold (predict_tokens sentence).
  rewrite len_predict_tokens. lia.
Qed.


(** [batch.text] is a rectangle: one row per example, every row as long as
    the longest example plus the two markers, and made of the begin id, the
    example's ids, the end id and padding only.  When the examples come from
    [preprocess], no row is longer than [max_input_length]. *)
Theorem batch_text_is_rectangular (b : Batch) (data : list (string * R)) :
  length (batch_text b) = length b
  /\ Forall (fun row =>
              length row
              = (fold_right Nat.max 0 (map (@length Z) (map fst b)) + 2)%nat)
           (batch_text b)
  /\ Forall2 (fun ex row =>
               exists k : nat,
                 row = [init_token_idx] ++ fst ex ++ [eos_token_idx]
                         ++ repeat pad_token_idx k)
            b (batch_text b)
  /\ Forall (fun row => len row <= max_input_length)
           (batch_text (map (fun sy => (preprocess (fst sy), snd sy)) data)).
Proof.
  assert (Hrect : forall b' : Batch,
             Forall (fun row =>
                       length row
                       = (fold_right Nat.max 0 (map (@length Z) (map fst b')) + 2)%nat)
                    (batch_text b')).
  { intros b'. unfold batch_text. apply Forall_forall. intros row Hin.
    apply in_map_iff in Hin. destruct Hin as (x & <- & Hx).
    pose proof (length_le_longest _ _ Hx) as Hle.
    rewrite !length_app, repeat_length. cbn [length]. lia. }
  split; [unfold batch_text; now rewrite !length_map |].
  split; [apply Hrect |].
  split.
  { unfold batch_text.
    set (m := fold_right Nat.max 0%nat (map (@length Z) (map fst b))). clearbody m.
    induction b as [| ex b IH]; cbn [map]; constructor; [| exact IH].
    now exists (m - length (fst ex))%nat. }
  specialize (Hrect (map (fun sy => (preprocess (fst sy), snd sy)) data)).
  eapply Forall_impl; [| exact Hrect].
  intros row Hrow. unfold len. rewrite Hrow.
  assert (Hb : (fold_right Nat.max 0
                  (map (@length Z)
                       (map fst (map (fun sy : string * R =>
                                        (preprocess (fst sy), snd sy)) data)))
                <= Z.to_nat (max_input_length - 2))%nat).
  { apply longest_bound. apply Forall_forall. intros x Hx.
    rewrite map_map in Hx. cbn [fst] in Hx. apply in_map_iff in Hx.
    destruct Hx as (sy & <- & _).
    pose proof (len_preprocess (fst sy)) as Hl. unfold len in Hl. lia. }
  unfold max_input_length in *. lia.
Qed.

(** Silent truncation: two sentences whose token lists agree on the first
    [max_input_length - 2] tokens give the same id sequence and, in the same
    state, the same result and the same state afterwards. *)
Theorem predict_sentiment_ignores_tokens_past_limit
        {th : Torch} (s1 s2 : string) (w : World) :
  firstn (Z.to_nat (max_input_length - 2)) (tokenize s1)
  = firstn (Z.to_nat (max_input_length - 2)) (tokenize s2) ->
  predict_indexed s1 = predict_indexed s2
  /\ predict_sentiment s1 w = predict_sentiment s2 w.
Proof.
  intros H.
  assert (Hi : predict_indexed s1 = predict_indexed s2).
  { unfold predict_indexed, predict_tokens.
    rewrite !py_slice_to_nonneg by (unfold max_input_length; lia).
    now rewrite H. }
  split; [exact Hi |].
  unfold predict_sentiment, predict_prediction. now rewrite Hi.
Qed.

End BatchFacts.

(** Two reviews of 600 and 601 characters that differ in the last one. *)
Lemma predict_sentiment_ignores_tokens_past_limit_witness :
  firstn (Z.to_nat (max_input_length - 2))
         (tokenize (Tokenizer := Toy.tokenizer) Toy.long_review)
  = firstn (Z.to_nat (max_input_length - 2))
           (tokenize (Tokenizer := Toy.tokenizer) ToyData.longer_review)
  /\ tokenize (Tokenizer := Toy.tokenizer) Toy.long_review
     <> tokenize (Tokenizer := Toy.tokenizer) ToyData.longer_review
  /\ predict_sentiment (tk := Toy.tokenizer) Toy.long_review Toy.world0
     = predict_sentiment (tk := Toy.tokenizer) ToyData.longer_review Toy.world0.
Proof.
  assert (H : firstn (Z.to_nat (max_input_length - 2))
                     (tokenize (Tokenizer := Toy.tokenizer) Toy.long_review)
              = firstn (Z.to_nat (max_input_length - 2))
                       (tokenize (Tokenizer := Toy.tokenizer) ToyData.longer_review))
    by (vm_compute; reflexivity).
  split; [exact H |].
  split.
  - intros E. apply (f_equal (@length string)) in E. vm_compute in E. discriminate.
  - exact (proj2 (predict_sentiment_ignores_tokens_past_limit
                    (tk := Toy.tokenizer) (th := Toy.torch)
                    Toy.long_review ToyData.longer_review Toy.world0 H)).
Defined.

(** ** Repeating evaluation, and training after inference *)

Section RepeatFacts.
Context {tk : Tokenizer} {th : Torch}.

Lemma evaluate_congr (it : list Batch) (crit : list R -> list R -> R) (w1 w2 : World) :
  values (bert (model w1)) = values (bert (model w2)) ->
  values (rnn (model w1)) = values (rnn (model w2)) ->
  values (out (model w1)) = values (out (model w2)) ->
  bidirectional (model w1) = bidirectional (model w2) ->
  generator w1 = generator w2 ->
  fst (evaluate it crit w1) = fst (evaluate it crit w2).
Proof.
  intros Hb Hr Ho Hbi Hg.
  assert (Hl : forall text, logits (eval_world w1) text = logits (eval_world w2) text)
    by (intros text; apply logits_congr; cbn; assumption || reflexivity).
  rewrite !evaluate_run. cbn [fst].
  rewrite (map_ext (batch_loss crit (eval_world w1)) (batch_loss crit (eval_world w2)))
    by (intros b; unfold batch_loss; now rewrite Hl).
  rewrite (map_ext (batch_acc (eval_world w1)) (batch_acc (eval_world w2)))
    by (intros b; unfold batch_acc; now rewrite Hl).
  reflexivity.
Qed.

Lemma predict_congr (sentence : string) (w1 w2 : World) :
  values (bert (model w1)) = values (bert (model w2)) ->
  values (rnn (model w1)) = values (rnn (model w2)) ->
  values (out (model w1)) = values (out (model w2)) ->
  bidirectional (model w1) = bidirectional (model w2) ->
  generator w1 = generator w2 ->
  fst (predict_sentiment sentence w1) = fst (predict_sentiment sentence w2).
Proof.
  intros Hb Hr Ho Hbi Hg.
  destruct (predict_sentiment_run sentence w1) as (l1 & Hl1 & _ & ->).
  destruct (predict_sentiment_run sentence w2) as (l2 & Hl2 & _ & ->).
  cbn [fst].
  assert (Hl : logits (snd (model_eval w1)) [predict_indexed sentence]
               = logits (snd (model_eval w2)) [predict_indexed sentence])
    by (apply logits_congr; cbn; assumption || reflexivity).
  rewrite Hl1, Hl2 in Hl. now inversion Hl.
Qed.

(** Evaluation and inference can be repeated and interleaved: an earlier
    [evaluate] or [predict_sentiment] call, on any data, changes the result
    of neither a later [evaluate] nor a later [predict_sentiment]. *)
Theorem evaluation_is_repeatable
        (it it' : list Batch) (crit crit' : list R -> list R -> R)
        (s s' : string) (w : World) :
  fst (evaluate it crit (snd (evaluate it' crit' w))) = fst (evaluate it crit w)
  /\ fst (evaluate it crit (snd (predict_sentiment s' w))) = fst (evaluate it crit w)
  /\ fst (predict_sentiment s (snd (evaluate it' crit' w)))
     = fst (predict_sentiment s w)
  /\ fst (predict_sentiment s (snd (predict_sentiment s' w)))
     = fst (predict_sentiment s w).
Proof.
  destruct (predict_sentiment_run s' w) as (l & _ & _ & Hp).
  rewrite Hp. cbn [snd].
  repeat split;
    (apply evaluate_congr || apply predict_congr);
    rewrite ?evaluate_run; reflexivity.
Qed.

(** [train] starts by switching to training mode, so the mode it finds does
    not matter: after [predict_sentiment] or [evaluate], or with the flag set
    either way, it returns the same losses and leaves the same state as
    without. *)
Theorem train_ignores_mode_it_finds
        (it it' : list Batch) (crit crit' : list R -> list R -> R)
        (s : string) (b : bool) (w : World) :
  train it crit (snd (predict_sentiment s w)) = train it crit w
  /\ train it crit (snd (evaluate it' crit' w)) = train it crit w
  /\ train it crit (with_model (set_training b (model w)) w) = train it crit w.
Proof.
  destruct (predict_sentiment_run s w) as (l & _ & _ & Hp).
  rewrite Hp, evaluate_run. cbn [snd]. repeat split.
Qed.

(** ** Gradients left by a training step *)

Lemma grads_adam_params (owner : string) (ps : list (string * Param)) :
  forall st, grads (fst (adam_params owner st ps)) = grads ps.
Proof.
  induction ps as [| [n p] ps IH]; intros st; [reflexivity |].
  cbn [adam_params fst snd]. destruct (grad p) as [g |] eqn:E.
  - destruct (adam_update st (qualify owner n) (data p) g) as [d st1].
    specialize (IH st1). destruct (adam_params owner st1 ps) as [rest st2].
    cbn in *. now rewrite IH.
  - specialize (IH st). destruct (adam_params owner st ps) as [rest st'].
    cbn in *. now rewrite IH.
Qed.

Lemma grads_backward_after_zero_grad (owner : string) (lv : list string)
      (g : string -> tensor) (ps : list (string * Param)) :
  grads (map (fun np => (fst np,
                         (fun name p =>
                            if in_dec string_dec name lv
                            then set_grad (accumulate (grad p) (g name)) p
                            else p)
                           (qualify owner (fst np)) (snd np)))
             (map (fun np => (fst np,
                              (fun (_ : string) p => set_grad None p)
                                (qualify owner (fst np)) (snd np)))
                  ps))
  = map (fun np => (fst np,
                    if in_dec string_dec (qualify owner (fst np)) lv
                    then Some (g (qualify owner (fst np))) else None))
        ps.
Proof.
  unfold grads. rewrite !map_map. apply map_ext. intros [n p]. cbn [fst snd].
  destruct (in_dec string_dec (qualify owner n) lv); reflexivity.
Qed.

Lemma Forall_qualified_grads (owner : string) (F : string -> option tensor)
      (ps : list (string * Param)) :
  Forall (fun ng => snd ng = F (qualify owner (fst ng))) (grads ps) ->
  Forall (fun np => grad (snd np) = F (fst np)) (qualified owner ps).
Proof.
  unfold grads, qualified. rewrite !Forall_map. cbn [fst snd]. exact (fun H => H).
Qed.

Lemma state_dict_zero_grad (m : BERTGRUSentiment) :
  state_dict (zero_grad_model m) = state_dict m.
Proof.
  unfold state_dict, named_parameters, zero_grad_model, update_named, qualified.
  cbn [bert rnn out]. rewrite !map_app, !map_map. reflexivity.
Qed.

Ltac enter_step :=
  unfold train_batch, zero_grad;
  cbv [bind modify get]; rewrite forward_run;
  cbv [history bind get ret lift]; cbn [value leaves];
  rewrite logits_zero_grad, binary_accuracy_batch, backward_run;
  cbn [value leaves]; rewrite loss_history_zero_grad.

(** After a training step every parameter in the history of the loss holds
    the gradient of this batch alone, computed at the values the step
    started from, and every other parameter, the whole encoder included,
    holds none: gradients of earlier batches are never added in.  This also
    covers the step that [backward] refuses, where the history is empty. *)
Theorem train_step_gradients_are_of_this_batch
        (crit : list R -> list R -> R) (totals : R * R) (b : Batch) (w : World) :
  Forall (fun np =>
            grad (snd np)
            = if in_dec string_dec (fst np) (loss_history w)
              then Some (autograd crit (state_dict (model w)) (training (model w))
                                  (generator w) (batch_text b) (batch_label b)
                                  (fst np))
              else None)
         (named_parameters (model (snd (train_batch crit totals b w)))).
Proof.
  enter_step. cbn [model with_model training generator].
  rewrite state_dict_zero_grad.
  change (training (zero_grad_model (model w))) with (training (model w)).
  set (g := autograd crit (state_dict (model w)) (training (model w)) (generator w)
                     (batch_text b) (batch_label b)).
  set (F := fun name : string =>
              if in_dec string_dec name (loss_history w) then Some (g name) else None).
  assert (Hz : forall owner ps,
             Forall (fun ng : string * option tensor => snd ng = F (qualify owner (fst ng)))
                    (map (fun np : string * Param =>
                            (fst np,
                             if in_dec string_dec (qualify owner (fst np)) (loss_history w)
                             then Some (g (qualify owner (fst np))) else None))
                         ps)).
  { intros owner ps. rewrite Forall_map. apply Forall_forall. intros np _. reflexivity. }
  destruct (loss_history w) as [| n lv] eqn:Eh.
  - cbn [snd after_forward with_model with_generator model].
    unfold named_parameters, zero_grad_model, update_named, qualified.
    cbn [bert rnn out]. rewrite !Forall_app, !Forall_map. cbn [fst snd].
    repeat split; apply Forall_forall; intros np _; reflexivity.
  - rewrite optimizer_step_run.
    cbn [snd after_forward with_model with_generator with_optimizer model optimizer].
    destruct (adam_step_fields (optimizer w)
                (backward_model (n :: lv) g (zero_grad_model (model w))))
      as (st1 & st2 & Hb & Hr & Ho & _).
    unfold named_parameters. rewrite !Forall_app.
    repeat split;
      [apply (Forall_qualified_grads "bert" F)
      | apply (Forall_qualified_grads "rnn" F)
      | apply (Forall_qualified_grads "out" F)].
    + rewrite Hb, grads_adam_params.
      unfold backward_model, zero_grad_model, update_named. cbn [bert].
      rewrite (grads_backward_after_zero_grad "bert"). apply Hz.
    + rewrite Hr, grads_adam_params.
      unfold backward_model, zero_grad_model, update_named. cbn [rnn].
      rewrite (grads_backward_after_zero_grad "rnn"). apply Hz.
    + rewrite Ho, grads_adam_params.
      unfold backward_model, zero_grad_model, update_named. cbn [out].
      rewrite (grads_backward_after_zero_grad "out"). apply Hz.
Qed.

End RepeatFacts.

(** ** The best validation loss *)




Section RunFacts.
Context {tk : Tokenizer} {th : Torch}.


End RunFacts.

(** ** Runs that complete and runs that abort *)

Section CompletionFacts.
Context {tk : Tokenizer} {th : Torch}.

Lemma train_returns (it : list Batch) (crit : list R -> list R -> R) (w : World) :
  it <> [] -> loss_history w <> [] ->
  exists r : R * R, fst (train it crit w) = Ok r.
Proof.
  intros Hit Hh. unfold train, model_train. cbv [bind modify].
  set (w0 := with_model (set_training true (model w)) w).
  assert (Hh0 : loss_history w0 <> [])
    by (rewrite (loss_history_frame w w0); [assumption | repeat split | reflexivity]).
  pose proof (train_loop crit it (0%R, 0%R) w0 Hh0) as Hl.
  destruct (for_each it (0%R, 0%R) (train_batch crit) w0) as [r w1].
  cbn [fst snd] in Hl. subst r. unfold lift, ret.
  rewrite !py_div_len by assumption. cbn [fst]. eexists. reflexivity.
Qed.




(** Without training batches the first epoch stops at the division in
    [train]; without validation batches it stops at the division in
    [evaluate], after the whole training pass of that epoch.  Either way the
    run raises [ZeroDivisionError] with nothing printed and no file written,
    and the test that follows is not reached. *)
Theorem run_with_empty_iterator_aborts
        (tr va te : list Batch) (crit : list R -> list R -> R) (n : nat) (w : World) :
  tr <> [] -> loss_history w <> [] ->
  fst (run [] va crit (S n) w) = Raise ZeroDivisionError
  /\ stdout (snd (run [] va crit (S n) w)) = []
  /\ model_pt (snd (run [] va crit (S n) w)) = []
  /\ fst (train_and_test [] va te crit (S n) w) = inl (Raised ZeroDivisionError)
  /\ fst (run tr [] crit (S n) w) = Raise ZeroDivisionError
  /\ stdout (snd (run tr [] crit (S n) w)) = []
  /\ model_pt (snd (run tr [] crit (S n) w)) = []
  /\ fst (train_and_test tr [] te crit (S n) w) = inl (Raised ZeroDivisionError).
Proof.
  intros Htr Hh.
  assert (H1 : run [] va crit (S n) w
               = (Raise ZeroDivisionError,
                  with_world (snd (train [] crit w)) (initial_script w)))
    by reflexivity.
  assert (H2 : exists w2, run tr [] crit (S n) w
                          = (Raise ZeroDivisionError, with_world w2 (initial_script w))).
  { unfold run. cbn [seq epoch_loop]. unfold epoch_body.
    cbn [world initial_script].
    destruct (train_returns tr crit w Htr Hh) as ([tl ta] & Ht).
    destruct (train tr crit w) as [r w1]. cbn [fst] in Ht. subst r.
    pose proof (evaluate_run [] crit w1) as He.
    destruct (evaluate [] crit w1) as [r w2].
    apply (f_equal fst) in He. cbn [fst] in He.
    change (py_div (0 + sum (map (batch_loss crit (eval_world w1)) [])) (len (@nil Batch)))
      with (@Raise R ZeroDivisionError) in He.
    cbn iota in He. subst r. now exists w2. }
  destruct H2 as (w2 & H2).
  unfold train_and_test. rewrite H1, H2. cbn [fst snd]. repeat split.
Qed.

End CompletionFacts.


(** [run_with_empty_iterator_aborts] from the prepared model. *)
Lemma run_with_empty_iterator_aborts_witness :
  [Toy.batch1] <> []
  /\ loss_history (th := Toy.torch) Toy.world0 <> []
  /\ fst (run (tk := Toy.tokenizer) [Toy.batch1] [] Toy.criterion N_EPOCHS Toy.world0)
     = Raise ZeroDivisionError
  /\ fst (run (tk := Toy.tokenizer) [] [ToyData.batch2] Toy.criterion N_EPOCHS Toy.world0)
     = Raise ZeroDivisionError.
Proof.
  assert (H1 : [Toy.batch1] <> []) by discriminate.
  assert (H3 : loss_history (th := Toy.torch) Toy.world0 <> [])
    by (vm_compute; discriminate).
  destruct (run_with_empty_iterator_aborts
              (tk := Toy.tokenizer) (th := Toy.torch)
              [Toy.batch1] [ToyData.batch2] [] Toy.criterion 1 Toy.world0 H1 H3)
    as (Ha & _ & _ & _ & Hb & _).
  repeat split; assumption.
Defined.

(** ** Saving and restoring the parameters *)

Section RestoreFacts.
Context {tk : Tokenizer} {th : Torch}.

Lemma lookup_In (l : list (string * tensor)) (k : string) (v : tensor) :
  NoDup (map fst l) -> In (k, v) l -> lookup k l = Some v.
Proof.
  induction l as [| [k' v'] l IH]; intros Hnd Hin; [destruct Hin |].
  cbn [map fst] in Hnd. inversion Hnd as [| ? ? Hnot Hnd']. subst.
  cbn [lookup fst snd]. destruct (string_dec k k') as [-> | Hne].
  - destruct Hin as [H | H]; [now inversion H |].
    exfalso. apply Hnot. now apply (in_map fst) in H.
  - destruct Hin as [H | H]; [inversion H; congruence | now apply IH].
Qed.

Lemma names_by_flags (m : BERTGRUSentiment) :
  map fst (named_parameters m)
  = map (fun nb => qualify "bert" (fst nb)) (flags (bert m))
    ++ map (fun nb => qualify "rnn" (fst nb)) (flags (rnn m))
    ++ map (fun nb => qualify "out" (fst nb)) (flags (out m)).
Proof.
  unfold named_parameters, qualified, flags. rewrite !map_app, !map_map. reflexivity.
Qed.

Lemma names_same_flags (m m' : BERTGRUSentiment) :
  same_flags m m' -> map fst (named_parameters m') = map fst (named_parameters m).
Proof. intros (Hb & Hr & Ho). now rewrite !names_by_flags, Hb, Hr, Ho. Qed.

Lemma names_state_dict (m : BERTGRUSentiment) :
  map fst (state_dict m) = map fst (named_parameters m).
Proof. unfold state_dict. rewrite map_map. reflexivity. Qed.

Lemma flags_names (ps ps' : list (string * Param)) :
  flags ps' = flags ps -> map fst ps' = map fst ps.
Proof.
  intros H. apply (f_equal (map fst)) in H. unfold flags in H.
  now rewrite !map_map in H.
Qed.

Lemma load_params_values (owner : string) (sd : list (string * tensor))
      (ps : list (string * Param)) :
  (forall n p, In (n, p) ps -> lookup (qualify owner n) sd = Some (data p)) ->
  forall ps' : list (string * Param),
    map fst ps' = map fst ps ->
    values (load_params owner sd ps') = values ps.
Proof.
  induction ps as [| [n p] ps IH]; intros Hl ps' Hn.
  - destruct ps'; [reflexivity | discriminate].
  - destruct ps' as [| [n' p'] ps']; [discriminate |].
    cbn [map fst] in Hn. inversion Hn. subst n'.
    unfold values, load_params in *. cbn [map fst snd].
    rewrite (Hl n p) by now left. cbn [fst snd data set_data].
    f_equal. apply IH; [| assumption].
    intros n0 p0 Hin. apply Hl. now right.
Qed.

Lemma load_params_flags (owner : string) (sd : list (string * tensor))
      (ps : list (string * Param)) :
  flags (load_params owner sd ps) = flags ps
  /\ grads (load_params owner sd ps) = grads ps.
Proof.
  unfold flags, grads, load_params. rewrite !map_map.
  split; apply map_ext; intros [n p]; cbn [fst snd];
    destruct (lookup (qualify owner n) sd); reflexivity.
Qed.

Lemma state_dict_by_module (m : BERTGRUSentiment) :
  state_dict m
  = map (fun nv => (qualify "bert" (fst nv), snd nv)) (values (bert m))
    ++ map (fun nv => (qualify "rnn" (fst nv), snd nv)) (values (rnn m))
    ++ map (fun nv => (qualify "out" (fst nv), snd nv)) (values (out m)).
Proof.
  unfold state_dict, named_parameters, qualified, values.
  rewrite !map_app, !map_map. reflexivity.
Qed.

Lemma state_dict_ext (x m : BERTGRUSentiment) :
  values (bert x) = values (bert m) ->
  values (rnn x) = values (rnn m) ->
  values (out x) = values (out m) ->
  state_dict x = state_dict m.
Proof.
  intros Hb Hr Ho. rewrite (state_dict_by_module x), (state_dict_by_module m).
  now rewrite Hb, Hr, Ho.
Qed.

Lemma forallb_has_key_self (l : list string) :
  forallb (fun k => has_key k l) l = true.
Proof.
  apply forallb_forall. intros k Hin. unfold has_key.
  destruct (in_dec string_dec k l); [reflexivity | contradiction].
Qed.

Lemma load_model_restores (m m' : BERTGRUSentiment) :
  NoDup (map fst (named_parameters m)) ->
  same_flags m m' ->
  values (bert (load_model (state_dict m) m')) = values (bert m)
  /\ values (rnn (load_model (state_dict m) m')) = values (rnn m)
  /\ values (out (load_model (state_dict m) m')) = values (out m)
  /\ keys_match (state_dict m) m' = true.
Proof.
  intros Hnd (Hb & Hr & Ho).
  assert (Hl : forall owner sub,
             incl (map (fun nv => (qualify owner (fst nv), snd nv)) (values sub))
                  (state_dict m) ->
             forall n p, In (n, p) sub ->
                         lookup (qualify owner n) (state_dict m) = Some (data p)).
  { intros owner sub Hincl n p Hin. apply lookup_In.
    - now rewrite names_state_dict.
    - apply Hincl. apply in_map_iff. exists (n, data p). split; [reflexivity |].
      unfold values. apply in_map_iff. now exists (n, p). }
  unfold load_model. cbn [bert rnn out].
  split; [| split; [| split]].
  - apply load_params_values; [| now apply flags_names].
    apply Hl. rewrite state_dict_by_module. intros x Hx. apply in_or_app. now left.
  - apply load_params_values; [| now apply flags_names].
    apply Hl. rewrite state_dict_by_module. intros x Hx.
    apply in_or_app. right. apply in_or_app. now left.
  - apply load_params_values; [| now apply flags_names].
    apply Hl. rewrite state_dict_by_module. intros x Hx.
    apply in_or_app. right. apply in_or_app. now right.
  - unfold keys_match.
    rewrite names_state_dict, (names_same_flags m m') by (repeat split; assumption).
    now rewrite forallb_has_key_self.
Qed.

(** Round trip of the checkpoint.  For a model with distinct parameter
    names, loading its state dictionary into a model with the same
    parameters succeeds and gives every parameter the saved value, so that
    [state_dict] then returns what was saved; tracking flags, gradients,
    mode, Adam's state and the autograd switch are not touched.  Loading an
    empty dictionary is refused as soon as the model has a parameter. *)
Theorem load_state_dict_restores_saved_values (m : BERTGRUSentiment) (w : World) :
  NoDup (map fst (named_parameters m)) ->
  same_flags m (model w) ->
  fst (load_state_dict (state_dict m) w) = Ok tt
  /\ state_dict (model (snd (load_state_dict (state_dict m) w))) = state_dict m
  /\ same_flags (model w) (model (snd (load_state_dict (state_dict m) w)))
  /\ grads (bert (model (snd (load_state_dict (state_dict m) w))))
     = grads (bert (model w))
  /\ grads (rnn (model (snd (load_state_dict (state_dict m) w))))
     = grads (rnn (model w))
  /\ grads (out (model (snd (load_state_dict (state_dict m) w))))
     = grads (out (model w))
  /\ training (model (snd (load_state_dict (state_dict m) w))) = training (model w)
  /\ optimizer (snd (load_state_dict (state_dict m) w)) = optimizer w
  /\ grad_enabled (snd (load_state_dict (state_dict m) w)) = grad_enabled w
  /\ (fst (load_state_dict [] w) = Ok tt <-> named_parameters (model w) = []).
Proof.
  intros Hnd Hf.
  destruct (load_model_restores m (model w) Hnd Hf) as (Hb & Hr & Ho & Hk).
  unfold load_state_dict. cbn [fst snd model with_model optimizer grad_enabled].
  rewrite Hk.
  split; [reflexivity |].
  split; [now apply state_dict_ext |].
  split.
  { unfold same_flags, load_model. cbn [bert rnn out].
    repeat split; apply load_params_flags. }
  unfold load_model. cbn [bert rnn out training].
  do 3 (split; [apply load_params_flags |]).
  do 3 (split; [reflexivity |]).
  unfold keys_match. cbn [map forallb]. rewrite andb_true_r.
  destruct (named_parameters (model w)) as [| np nps]; cbn; split; intros H;
    try reflexivity; discriminate.
Qed.





End RestoreFacts.

Lemma toy_names_distinct :
  NoDup (map fst (named_parameters (model Toy.world0))).
Proof.
  assert (E : nodup string_dec (map fst (named_parameters (model Toy.world0)))
              = map fst (named_parameters (model Toy.world0)))
    by (vm_compute; reflexivity).
  rewrite <- E. apply NoDup_nodup.
Qed.

(** [load_state_dict_restores_saved_values] for the prepared model and
    its own state dictionary. *)
Lemma load_state_dict_restores_saved_values_witness :
  NoDup (map fst (named_parameters (model Toy.world0)))
  /\ same_flags (model Toy.world0) (model Toy.world0)
  /\ fst (load_state_dict (state_dict (model Toy.world0)) Toy.world0) = Ok tt
  /\ state_dict (model (snd (load_state_dict (state_dict (model Toy.world0))
                                             Toy.world0)))
     = state_dict (model Toy.world0).
Proof.
  pose proof toy_names_distinct as H1.
  pose proof (same_flags_refl (model Toy.world0)) as H2.
  destruct (load_state_dict_restores_saved_values
              (th := Toy.torch) (model Toy.world0) Toy.world0 H1 H2)
    as (Hok & Hsd & _).
  repeat split; assumption.
Defined.


(** ** Elapsed time *)






